(** * telgent: the webhook-driven search-and-summarize relay of [main.py]

    A shallow embedding of [src/main.py]: the Search Stage [brave_search],
    the Summarization Stage [summarize_with_openai], the Dispatch Stage
    [handle_message], the webhook endpoint [telegram_webhook] and the
    [lifespan] start-up and shutdown code.

    Python values that cross the HTTP boundary are JSON values; every
    coroutine is a computation over the chronological trace of the calls the
    process makes to the outside (chat replies, provider requests, log lines,
    lifecycle calls), and may finish by returning a value or by raising.  The
    outside world is an oracle that answers each call from the history so
    far. *)

From Stdlib Require Import String Ascii List ZArith Bool Lia Floats DecimalString.
Import ListNotations.
Local Open Scope list_scope.
Local Open Scope string_scope.
Local Set Warnings "-register-all".

(** ** Python strings

    A [str] is modelled by its UTF-8 bytes.  The two markers the Dispatch
    Stage looks for are ASCII, so a substring test on bytes agrees with the
    test on code points. *)

Module PyStr.

(** [str.lower()] on one byte: the ASCII capitals move to lower case.  The
    bytes of a non-ASCII code point stay as they are; Python maps such a
    code point to a non-ASCII one, except U+212A (to [k]) and U+0130 (to
    [i] followed by U+0307), and neither result can complete the words
    searched below. *)
Definition lower_ascii (c : ascii) : ascii :=
  let n := nat_of_ascii c in
  if andb (Nat.leb 65 n) (Nat.leb n 90) then ascii_of_nat (n + 32) else c.

Fixpoint lower (s : string) : string :=
  match s with
  | EmptyString => EmptyString
  | String c r => String (lower_ascii c) (lower r)
  end.

Fixpoint startswith (p s : string) : bool :=
  match p, s with
  | EmptyString, _ => true
  | String a p', String b s' => if Ascii.eqb a b then startswith p' s' else false
  | String _ _, EmptyString => false
  end.

(** [needle in hay] for two strings. *)
Fixpoint contains (needle hay : string) : bool :=
  if startswith needle hay then true
  else match hay with
       | EmptyString => false
       | String _ r => contains needle r
       end.

(** White space in the sense of [str.isspace], read off the UTF-8 bytes at
    the front of a string: the number of bytes of the white-space code
    point that starts the string, or [0] when there is none. *)
Definition space_width (s : list nat) : nat :=
  match s with
  | c :: r =>
      if orb (andb (Nat.leb 9 c) (Nat.leb c 13))
             (orb (andb (Nat.leb 28 c) (Nat.leb c 31)) (Nat.eqb c 32))
      then 1
      else match c, r with
           | 194, 133 :: _ => 2                       (* U+0085 *)
           | 194, 160 :: _ => 2                       (* U+00A0 *)
           | 225, 154 :: 128 :: _ => 3                (* U+1680 *)
           | 226, 128 :: d :: _ =>
               if orb (andb (Nat.leb 128 d) (Nat.leb d 138))      (* U+2000..U+200A *)
                      (orb (Nat.eqb d 168) (orb (Nat.eqb d 169)   (* U+2028, U+2029 *)
                                                (Nat.eqb d 175))) (* U+202F *)
               then 3 else 0
           | 226, 129 :: 159 :: _ => 3                (* U+205F *)
           | 227, 128 :: 128 :: _ => 3                (* U+3000 *)
           | _, _ => 0
           end
  | [] => 0
  end.

(** The same test on a reversed string: the bytes of the last code point
    come first, last byte first. *)
Definition space_width_rev (s : list nat) : nat :=
  match s with
  | c :: r =>
      if orb (andb (Nat.leb 9 c) (Nat.leb c 13))
             (orb (andb (Nat.leb 28 c) (Nat.leb c 31)) (Nat.eqb c 32))
      then 1
      else match r with
           | 194 :: _ => if orb (Nat.eqb c 133) (Nat.eqb c 160) then 2 else 0
           | 154 :: 225 :: _ => if Nat.eqb c 128 then 3 else 0
           | 128 :: 226 :: _ =>
               if orb (andb (Nat.leb 128 c) (Nat.leb c 138))
                      (orb (Nat.eqb c 168) (orb (Nat.eqb c 169) (Nat.eqb c 175)))
               then 3 else 0
           | 129 :: 226 :: _ => if Nat.eqb c 159 then 3 else 0
           | 128 :: 227 :: _ => if Nat.eqb c 128 then 3 else 0
           | _ => 0
           end
  | [] => 0
  end.

(** Drop white space from the front; [fuel] bounds the number of code
    points dropped and is taken as the length of the string. *)
Fixpoint drop_space (width : list nat -> nat) (fuel : nat) (s : list nat) : list nat :=
  match fuel with
  | O => s
  | S fuel' =>
      match width s with
      | O => s
      | w => drop_space width fuel' (skipn w s)
      end
  end.

Definition bytes (s : string) : list nat := map nat_of_ascii (list_ascii_of_string s).
Definition of_bytes (l : list nat) : string := string_of_list_ascii (map ascii_of_nat l).

(** [str.strip()]: white space removed from both ends. *)
Definition strip (s : string) : string :=
  let b := bytes s in
  let l := drop_space space_width (List.length b) b in
  let r := drop_space space_width_rev (List.length l) (rev l) in
  of_bytes (rev r).

(** [sep.join(parts)]. *)
Fixpoint join (sep : string) (parts : list string) : string :=
  match parts with
  | [] => ""
  | [p] => p
  | p :: rest => p ++ sep ++ join sep rest
  end.

(** The line feed, [chr(10)]. *)
Definition LF : string := String (ascii_of_nat 10) EmptyString.

(** Truth value of a string: non-empty. *)
Definition truthy (s : string) : bool :=
  match s with EmptyString => false | _ => true end.

(** The number of bytes of the code point that starts with lead byte [c]
    in UTF-8. *)
Definition char_width (c : nat) : nat :=
  if Nat.ltb c 192 then 1
  else if Nat.ltb c 224 then 2
  else if Nat.ltb c 240 then 3
  else 4.

(** The characters of a string, as Python iterates over it: one string
    per code point. *)
Fixpoint chars_of (fuel : nat) (b : list nat) : list string :=
  match fuel, b with
  | S fuel', c :: _ =>
      let w := char_width c in
      of_bytes (firstn w b) :: chars_of fuel' (skipn w b)
  | _, _ => []
  end.

Definition chars (s : string) : list string :=
  let b := bytes s in chars_of (List.length b) b.

End PyStr.

(** ** Exceptions and results

    Every exception of the model is an instance of [Exception]; the classes
    are the ones the program can meet.  Task cancellation and interpreter
    exit, which are not instances of [Exception], are outside the model. *)

Inductive exn : Type :=
| HTTPStatusError (status : Z)        (* httpx: raised by raise_for_status *)
| RequestError (detail : string)      (* httpx: time-outs, connection and protocol failures *)
| JSONDecodeError
| TypeError
| KeyError
| IndexError
| AttributeError
| TelegramError (detail : string)
| RuntimeError (detail : string)
| HTTPException (status : Z) (detail : string)   (* fastapi *)
| OtherError (name detail : string).

(** [isinstance(e, httpx.HTTPError)]. *)
Definition isinstance_HTTPError (e : exn) : bool :=
  match e with
  | HTTPStatusError _ | RequestError _ => true
  | _ => false
  end.

(** [isinstance(e, Exception)]. *)
Definition isinstance_Exception (e : exn) : bool := true.

Inductive result (A : Type) : Type :=
| Ok (a : A)
| Raise (e : exn).
Arguments Ok {A} a.
Arguments Raise {A} e.

Definition rbind {A B : Type} (r : result A) (f : A -> result B) : result B :=
  match r with
  | Ok a => f a
  | Raise e => Raise e
  end.

Declare Scope result_scope.
Delimit Scope result_scope with result.
Notation "x <~ r ; k" := (rbind r (fun x => k))
  (at level 61, r at next level, right associativity) : result_scope.

Fixpoint mapM {A B : Type} (f : A -> result B) (l : list A) : result (list B) :=
  match l with
  | [] => Ok []
  | a :: l' => rbind (f a) (fun b => rbind (mapM f l') (fun bs => Ok (b :: bs)))
  end.

(** ** JSON values and the Python operations the program applies to them *)

Inductive json : Type :=
| JNull
| JBool (b : bool)
| JInt (n : Z)
| JFloat (f : float)
| JStr (s : string)
| JList (l : list json)
| JDict (d : list (string * json)).

Module Py.

(** [bool(v)]. *)
Definition truthy (v : json) : bool :=
  match v with
  | JNull => false
  | JBool b => b
  | JInt n => negb (Z.eqb n 0)
  | JFloat f => negb (PrimFloat.eqb f 0%float)
  | JStr s => PyStr.truthy s
  | JList l => match l with [] => false | _ => true end
  | JDict d => match d with [] => false | _ => true end
  end.

(** The value a dict holds under key [k], if any. *)
Fixpoint lookup (k : string) (d : list (string * json)) : option json :=
  match d with
  | [] => None
  | (k', v) :: d' => if String.eqb k' k then Some v else lookup k d'
  end.

(** [k in v] for a string [k]: key of a dict, element of a list, substring
    of a string; the other values are not containers. *)
Definition contains (k : string) (v : json) : result bool :=
  match v with
  | JDict d => Ok (match lookup k d with Some _ => true | None => false end)
  | JList l => Ok (existsb (fun x => match x with JStr s => String.eqb s k | _ => false end) l)
  | JStr s => Ok (PyStr.contains k s)
  | _ => Raise TypeError
  end.

(** [v[k]] for a string [k]. *)
Definition getitem (v : json) (k : string) : result json :=
  match v with
  | JDict d => match lookup k d with Some x => Ok x | None => Raise KeyError end
  | _ => Raise TypeError
  end.

(** [v[0]]. *)
Definition getitem0 (v : json) : result json :=
  match v with
  | JList (x :: _) => Ok x
  | JList [] => Raise IndexError
  | JStr s => match PyStr.chars s with c :: _ => Ok (JStr c) | [] => Raise IndexError end
  | JDict _ => Raise KeyError
  | _ => Raise TypeError
  end.

(** [v[:3]].  A dict refuses a slice as a key (with [TypeError], or with
    [KeyError] from Python 3.12 on; both are plain exceptions and the program
    treats them alike). *)
Definition slice3 (v : json) : result json :=
  match v with
  | JList l => Ok (JList (firstn 3 l))
  | JStr s => Ok (JStr (String.concat "" (firstn 3 (PyStr.chars s))))
  | _ => Raise TypeError
  end.

(** The elements a [for] loop over [v] visits. *)
Definition iter (v : json) : result (list json) :=
  match v with
  | JList l => Ok l
  | JStr s => Ok (map JStr (PyStr.chars s))
  | JDict d => Ok (map (fun kv => JStr (fst kv)) d)
  | _ => Raise TypeError
  end.

(** [v.get(k, default)]: only a dict has the method. *)
Definition get (v : json) (k : string) (default : json) : result json :=
  match v with
  | JDict d => Ok (match lookup k d with Some x => x | None => default end)
  | _ => Raise AttributeError
  end.

End Py.

(** ** The outside world: calls, answers and the trace *)

(** An HTTP response as the program uses it: its status code and what
    [.json()] gives for its body (a value, or the exception the decoder
    raises). *)
Record Response : Type := {
  status_code : Z;
  json_body : result json
}.

(** [response.raise_for_status()]: any status outside 200..299 raises. *)
Definition raise_for_status (resp : Response) : result unit :=
  if andb (Z.leb 200 (status_code resp)) (Z.leb (status_code resp) 299)
  then Ok tt
  else Raise (HTTPStatusError (status_code resp)).

(** What the process does to the outside, in the order it does it. *)
Inductive event : Type :=
| HttpGet (url : string) (headers : list (string * string)) (params : list (string * json))
| HttpPost (url : string) (headers : list (string * string)) (body : json)
| ReplyText (text : json)             (* update.message.reply_text(text) *)
| LogError (prefix : string) (e : exn)
| LogInfo (msg : string)
| NewAsyncClient (timeout : float)
| AppInitialize
| AppStart
| AppStop
| ClientAclose.

(** The inbound update, projected on what the handler reads. *)
Record Message : Type := { text : option string }.
Record Update : Type := { message : option Message }.

(** The body of a webhook request: what [await request.json()] gives. *)
Record Request : Type := { request_json : result json }.

(** A coroutine: from the trace so far to the trace after it and its
    outcome. *)
Definition M (A : Type) : Type := list event -> list event * result A.

Definition ret {A : Type} (a : A) : M A := fun tr => (tr, Ok a).

Definition raise {A : Type} (e : exn) : M A := fun tr => (tr, Raise e).

Definition bind {A B : Type} (m : M A) (f : A -> M B) : M B :=
  fun tr =>
    match m tr with
    | (tr', Ok a) => f a tr'
    | (tr', Raise e) => (tr', Raise e)
    end.

Definition lift {A : Type} (r : result A) : M A := fun tr => (tr, r).

Declare Scope coro_scope.
Delimit Scope coro_scope with coro.
Notation "x <- m ;; k" := (bind m (fun x => k))
  (at level 61, m at next level, right associativity) : coro_scope.
Notation "m ;; k" := (bind m (fun _ => k))
  (at level 61, right associativity) : coro_scope.

(** [try: m  except C1 as e: h1 e  except C2 as e: h2 e]: the first clause
    whose class the exception belongs to handles it; an exception raised in a
    handler is not handled here. *)
Definition try_except2 {A : Type} (m : M A)
    (c1 : exn -> bool) (h1 : exn -> M A)
    (c2 : exn -> bool) (h2 : exn -> M A) : M A :=
  fun tr =>
    match m tr with
    | (tr', Ok a) => (tr', Ok a)
    | (tr', Raise e) =>
        if c1 e then h1 e tr'
        else if c2 e then h2 e tr'
        else (tr', Raise e)
    end.

(** [try: m  except C as e: h e]. *)
Definition try_except {A : Type} (m : M A) (c : exn -> bool) (h : exn -> M A) : M A :=
  fun tr =>
    match m tr with
    | (tr', Ok a) => (tr', Ok a)
    | (tr', Raise e) => if c e then h e tr' else (tr', Raise e)
    end.

(** A step that is recorded and does not raise: a logger call, the
    construction of the HTTP client. *)
Definition emit (ev : event) : M unit := fun tr => ((tr ++ [ev])%list, Ok tt).

(** The environment of a run: the configuration read at import time, the
    library functions the program calls and the answers of the outside
    world.  An answer is a function of the whole history, the call being
    answered last, so that the world may react to anything that came
    before. *)
Record Env : Type := {
  BRAVE_API_KEY : string;
  OPENAI_API_KEY : string;
  (** the text an f-string puts for a value that is not a string *)
  str_value : json -> string;
  (** the outcome of [http_client.get] and [http_client.post] *)
  http_answer : list event -> result Response;
  (** the outcome of [reply_text], of the application's life-cycle calls and
      of [aclose] *)
  call_answer : list event -> result unit;
  (** [Update.de_json(json_data, telegram_app.bot)] *)
  de_json : json -> result (option Update);
  (** [telegram_app.process_update(update)] *)
  process_update : Update -> M unit
}.

(** ** The program *)

Section MainPy.

Context (env : Env).

Local Open Scope coro_scope.

(** [await http_client.get(url, headers=headers, params=params)].  The
    handlers run between start-up and shutdown, where [http_client] is the
    open client. *)
Definition http_get (url : string) (headers : list (string * string))
    (params : list (string * json)) : M Response :=
  fun tr => let tr' := (tr ++ [HttpGet url headers params])%list in (tr', http_answer env tr').

(** [await http_client.post(url, headers=headers, json=data)]. *)
Definition http_post (url : string) (headers : list (string * string)) (data : json) : M Response :=
  fun tr => let tr' := (tr ++ [HttpPost url headers data])%list in (tr', http_answer env tr').

(** A call to the outside that returns nothing. *)
Definition call (ev : event) : M unit :=
  fun tr => let tr' := (tr ++ [ev])%list in (tr', call_answer env tr').

(** [await update.message.reply_text(text)]. *)
Definition reply_text (update : Update) (text : json) : M unit :=
  match message update with
  | Some _ => call (ReplyText text)
  | None => raise AttributeError
  end.

(** What [f"{v}"] puts for [v]. *)
Definition format (v : json) : string :=
  match v with
  | JStr s => s
  | _ => str_value env v
  end.

(** *** Search Stage *)

(** [f"{r.get('title', 'No title')} - {r.get('url', 'No URL')}"]. *)
Definition render_result (r : json) : result string :=
  (title <~ Py.get r "title" (JStr "No title") ;
   url <~ Py.get r "url" (JStr "No URL") ;
   Ok (format title ++ " - " ++ format url))%result.

(** ["web" in data and "results" in data["web"] and data["web"]["results"]],
    as the [if] reads it. *)
Definition has_results (data : json) : result bool :=
  (c1 <~ Py.contains "web" data ;
   if c1 then
     web <~ Py.getitem data "web" ;
     c2 <~ Py.contains "results" web ;
     if c2 then
       web' <~ Py.getitem data "web" ;
       results <~ Py.getitem web' "results" ;
       Ok (Py.truthy results)
     else Ok false
   else Ok false)%result.

(** The [try] block of [brave_search] from [data = resp.json()] on. *)
Definition search_digest (data : json) : result string :=
  (c <~ has_results data ;
   if c then
     web <~ Py.getitem data "web" ;
     results <~ Py.getitem web "results" ;
     top <~ Py.slice3 results ;
     rs <~ Py.iter top ;
     lines <~ mapM render_result rs ;
     Ok (PyStr.join PyStr.LF lines)
   else Ok "No search results found.")%result.

Definition brave_url : string := "https://api.search.brave.com/res/v1/web/search".

Definition brave_headers : list (string * string) :=
  [("Accept", "application/json"); ("X-Subscription-Token", BRAVE_API_KEY env)].

Definition brave_params (query : string) : list (string * json) :=
  [("q", JStr query); ("count", JInt 3)].

Definition brave_search (query : string) : M string :=
  try_except2
    (resp <- http_get brave_url brave_headers (brave_params query) ;;
     lift (raise_for_status resp) ;;
     data <- lift (json_body resp) ;;
     lift (search_digest data))
    isinstance_HTTPError
    (fun e => emit (LogError "Brave search error: " e) ;;
              ret "Search service temporarily unavailable.")
    isinstance_Exception
    (fun e => emit (LogError "Unexpected error in brave_search: " e) ;;
              ret "An error occurred during search.").

(** *** Summarization Stage *)

Definition openai_url : string := "https://api.openai.com/v1/chat/completions".

Definition openai_headers : list (string * string) :=
  [("Authorization", "Bearer " ++ OPENAI_API_KEY env); ("Content-Type", "application/json")].

(** The request body; the temperature is the binary64 value of [0.7]. *)
Definition openai_data (text : string) : json :=
  JDict
    [("model", JStr "gpt-4");
     ("messages",
      JList
        [JDict [("role", JStr "system");
                ("content",
                 JStr "You are a helpful assistant that summarizes search results concisely.")];
         JDict [("role", JStr "user");
                ("content",
                 JStr ("Summarize and explain these search results:" ++ PyStr.LF ++ text))]]);
     ("max_tokens", JInt 500);
     ("temperature", JFloat 0x1.6666666666666p-1%float)].

(** ["choices" in result and result["choices"]], as the [if] reads it
    ([res] stands for the source's [result]). *)
Definition has_choices (res : json) : result bool :=
  (c <~ Py.contains "choices" res ;
   if c then
     choices <~ Py.getitem res "choices" ;
     Ok (Py.truthy choices)
   else Ok false)%result.

(** [result["choices"][0]["message"]["content"]]. *)
Definition first_choice_content (res : json) : result json :=
  (choices <~ Py.getitem res "choices" ;
   choice <~ Py.getitem0 choices ;
   msg <~ Py.getitem choice "message" ;
   Py.getitem msg "content")%result.

(** The [try] block of [summarize_with_openai] from [result = response.json()]
    on. *)
Definition summary_of (res : json) : result json :=
  (c <~ has_choices res ;
   if c then first_choice_content res
   else Ok (JStr "Unable to generate summary."))%result.

Definition summarize_with_openai (text : string) : M json :=
  try_except2
    (response <- http_post openai_url openai_headers (openai_data text) ;;
     lift (raise_for_status response) ;;
     res <- lift (json_body response) ;;
     lift (summary_of res))
    isinstance_HTTPError
    (fun e => emit (LogError "OpenAI API error: " e) ;;
              ret (JStr "Summary service temporarily unavailable."))
    isinstance_Exception
    (fun e => emit (LogError "Unexpected error in summarize_with_openai: " e) ;;
              ret (JStr "An error occurred while generating summary.")).

(** *** Dispatch Stage *)

(** ["error" in results.lower() or "unavailable" in results.lower()]. *)
Definition is_failure_sentinel (results : string) : bool :=
  orb (PyStr.contains "error" (PyStr.lower results))
      (PyStr.contains "unavailable" (PyStr.lower results)).

Definition searching_ack : string := "🔎 Searching...".
Definition summary_ack : string := "💡 Generating summary...".
Definition query_prompt : string := "Please send a search query.".
Definition apology : string := "Sorry, an error occurred. Please try again.".

(** The [try] block of [handle_message]; each [return] ends the block. *)
Definition handle_message_try (update : Update) : M unit :=
  match message update with
  | None => ret tt
  | Some msg =>
      match text msg with
      | None => ret tt
      | Some t =>
          if negb (PyStr.truthy t) then ret tt
          else
            let query := PyStr.strip t in
            if negb (PyStr.truthy query) then
              reply_text update (JStr query_prompt)
            else
              reply_text update (JStr searching_ack) ;;
              results <- brave_search query ;;
              if is_failure_sentinel results then
                reply_text update (JStr results)
              else
                reply_text update (JStr summary_ack) ;;
                summary <- summarize_with_openai results ;;
                reply_text update summary
      end
  end.

Definition handle_message (update : Update) : M unit :=
  try_except (handle_message_try update)
    isinstance_Exception
    (fun e => emit (LogError "Error in handle_message: " e) ;;
              reply_text update (JStr apology)).

(** *** Webhook endpoint *)

(** The [try] block of [telegram_webhook]. *)
Definition telegram_webhook_try (request : Request) : M json :=
  json_data <- lift (request_json request) ;;
  update <- lift (de_json env json_data) ;;
  match update with
  | Some u =>
      process_update env u ;;
      ret (JDict [("ok", JBool true)])
  | None => raise (HTTPException 400 "Invalid update data")
  end.

Definition telegram_webhook (request : Request) : M json :=
  try_except (telegram_webhook_try request)
    isinstance_Exception
    (fun e => emit (LogError "Webhook error: " e) ;;
              raise (HTTPException 500 "Internal server error")).

(** *** Process life cycle *)

(** [lifespan] up to its [yield]. *)
Definition lifespan_startup : M unit :=
  emit (NewAsyncClient 30%float) ;;
  call AppInitialize ;;
  call AppStart ;;
  emit (LogInfo "Telegram bot started").

(** [lifespan] after its [yield]. *)
Definition lifespan_shutdown : M unit :=
  call AppStop ;;
  call ClientAclose ;;
  emit (LogInfo "Application stopped").

End MainPy.

(** ** The rest of [main.py] *)

(** The truth value of what [os.getenv] gives: a variable that is not set
    ([None]) and one set to the empty string are both false. *)
Definition getenv_truthy (v : option string) : bool :=
  match v with
  | Some s => PyStr.truthy s
  | None => false
  end.

(** The check made when the module is imported:
    [if not all([TELEGRAM_TOKEN, BRAVE_API_KEY, OPENAI_API_KEY]): raise ValueError(...)]. *)
Definition check_environment (telegram_token brave_api_key openai_api_key : option string)
    : result unit :=
  if negb (forallb getenv_truthy [telegram_token; brave_api_key; openai_api_key])
  then Raise (OtherError "ValueError" "Missing required environment variables")
  else Ok tt.

(** [lifespan] as the server uses it: the code up to the [yield], the
    application served inside the context, the code after the [yield].  The
    generator has no [try], so an exception of start-up ends it before the
    [yield], and an exception thrown in at the [yield] leaves it without
    running what follows. *)
Definition lifespan (env : Env) (serve : M unit) : M unit :=
  bind (lifespan_startup env) (fun _ => bind serve (fun _ => lifespan_shutdown env)).

(** [health_check], given what [telegram_app.running] reads. *)
Definition health_check (running : bool) : M json :=
  ret (JDict [("status", JStr "healthy"); ("bot_running", JBool running)]).

(** The sentinel [brave_search] returns when its [try] block raises [e]. *)
Definition search_failure_sentinel (e : exn) : string :=
  if isinstance_HTTPError e
  then "Search service temporarily unavailable."
  else "An error occurred during search.".

(** The sentinel [summarize_with_openai] returns when its [try] block raises
    [e]. *)
Definition summary_failure_sentinel (e : exn) : string :=
  if isinstance_HTTPError e
  then "Summary service temporarily unavailable."
  else "An error occurred while generating summary.".

(** ** Reading a trace *)

(** The texts handed to [reply_text], in order. *)
Definition replies (tr : list event) : list json :=
  flat_map (fun ev => match ev with ReplyText t => [t] | _ => [] end) tr.

(** The requests made to the search provider. *)
Definition search_calls (tr : list event) : list event :=
  filter (fun ev => match ev with HttpGet _ _ _ => true | _ => false end) tr.

(** The requests made to the summarization provider. *)
Definition summarize_calls (tr : list event) : list event :=
  filter (fun ev => match ev with HttpPost _ _ _ => true | _ => false end) tr.

(** A log line, as opposed to a call to the outside. *)
Definition is_log (ev : event) : bool :=
  match ev with
  | LogError _ _ | LogInfo _ => true
  | _ => false
  end.

(** The text of the update's message, when it has a message with a text
    field. *)
Definition update_text (u : Update) : option string :=
  match message u with
  | Some m => text m
  | None => None
  end.

(** What the webhook makes of a request body: the update, [None], or the
    exception of the JSON decoder or of [de_json]. *)
Definition parse_update (env : Env) (request : Request) : result (option Update) :=
  rbind (request_json request) (de_json env).

(** A body that does not parse into an update. *)
Definition unparseable (env : Env) (request : Request) : Prop :=
  match parse_update env request with
  | Ok (Some _) => False
  | _ => True
  end.

(** One line of the digest for a result object [d]. *)
Definition digest_line (env : Env) (d : list (string * json)) : string :=
  format env (match Py.lookup "title" d with Some v => v | None => JStr "No title" end)
  ++ " - " ++
  format env (match Py.lookup "url" d with Some v => v | None => JStr "No URL" end).

(** The list the decoded body holds at [data["web"]["results"]], when it holds
    one. *)
Definition listed_results (data : json) : option (list json) :=
  match Py.getitem data "web" with
  | Ok web =>
      match Py.getitem web "results" with
      | Ok (JList l) => Some l
      | _ => None
      end
  | Raise _ => None
  end.

(** What the [try] block of [brave_search] computes from the provider's
    answer, apart from the trace: the status check, the decoding and the
    digest. *)
Definition search_result (env : Env) (ans : result Response) : result string :=
  (resp <~ ans ;
   _ <~ raise_for_status resp ;
   data <~ json_body resp ;
   search_digest env data)%result.

(** What the [try] block of [summarize_with_openai] computes from the
    provider's answer, apart from the trace. *)
Definition summary_result (ans : result Response) : result json :=
  (response <~ ans ;
   _ <~ raise_for_status response ;
   res <~ json_body response ;
   summary_of res)%result.

(** The trace after the [except] clause of [handle_message], entered at
    [tr'] with [e]: the log line and the apology. *)
Definition apologize (e : exn) (tr' : list event) : list event :=
  (tr' ++ [LogError "Error in handle_message: " e; ReplyText (JStr apology)])%list.

(** Whether the HTTP client's [aclose] was called. *)
Definition closed (tr : list event) : bool :=
  existsb (fun ev => match ev with ClientAclose => true | _ => false end) tr.

(** Whether the application's [stop] was called. *)
Definition stopped (tr : list event) : bool :=
  existsb (fun ev => match ev with AppStop => true | _ => false end) tr.

(** ** Concrete environments, to run the model *)

(** Python's [str] on [None], booleans and integers; floats and containers,
    which the runs below never format, are left as an ellipsis. *)
Definition str_scalar (v : json) : string :=
  match v with
  | JNull => "None"
  | JBool true => "True"
  | JBool false => "False"
  | JInt n => DecimalString.NilZero.string_of_int (Z.to_int n)
  | _ => "..."
  end.

(** A small stand-in for the library's update parser: nothing for an empty
    payload, [TypeError] without an [update_id], else the message and its
    text when they are there. *)
Definition de_json_basic (data : json) : result (option Update) :=
  match data with
  | JNull | JDict [] => Ok None
  | JDict d =>
      match Py.lookup "update_id" d with
      | None => Raise TypeError
      | Some _ =>
          Ok (Some {| message :=
                match Py.lookup "message" d with
                | Some (JDict m) =>
                    Some {| text := match Py.lookup "text" m with
                                    | Some (JStr s) => Some s
                                    | _ => None
                                    end |}
                | _ => None
                end |})
      end
  | _ => Raise TypeError
  end.

(** A world that answers each call by looking at the call alone. *)
Definition last_event (tr : list event) : option event := last (map Some tr) None.

Definition scripted (http : event -> result Response) (calls : event -> result unit) : Env :=
  {| BRAVE_API_KEY := "brave-key";
     OPENAI_API_KEY := "openai-key";
     str_value := str_scalar;
     http_answer := fun tr =>
       match last_event tr with Some ev => http ev | None => Raise (RuntimeError "no call") end;
     call_answer := fun tr =>
       match last_event tr with Some ev => calls ev | None => Raise (RuntimeError "no call") end;
     de_json := de_json_basic;
     process_update := fun _ => ret tt |}.

(** The same world with the handler registered behind [process_update]; the
    library logs what the handler raises. *)
Definition scripted_app (http : event -> result Response) (calls : event -> result unit) : Env :=
  let base := scripted http calls in
  {| BRAVE_API_KEY := BRAVE_API_KEY base;
     OPENAI_API_KEY := OPENAI_API_KEY base;
     str_value := str_value base;
     http_answer := http_answer base;
     call_answer := call_answer base;
     de_json := de_json base;
     process_update := fun u =>
       try_except (handle_message base u) isinstance_Exception
         (fun e => emit (LogError "No error handlers are registered, logging exception." e)) |}.

Definition ok_response (data : json) : Response :=
  {| status_code := 200; json_body := Ok data |}.

(** Two search results, the second without a title. *)
Definition two_results : json :=
  JDict [("web", JDict [("results",
    JList [JDict [("title", JStr "Rocq"); ("url", JStr "https://rocq-prover.org")];
           JDict [("url", JStr "https://example.org")]])])].

(** A well-formed answer with an empty result list. *)
Definition no_results : json := JDict [("web", JDict [("results", JList [])])].

(** A completion with one choice of content [c]. *)
Definition completion (c : json) : json :=
  JDict [("choices", JList [JDict [("message", JDict [("role", JStr "assistant"); ("content", c)])]])].

(** Both providers answer; the search finds [found] and the model says [c]. *)
Definition providers (found : json) (c : json) (ev : event) : result Response :=
  match ev with
  | HttpGet _ _ _ => Ok (ok_response found)
  | HttpPost _ _ _ => Ok (ok_response (completion c))
  | _ => Raise (RuntimeError "not an HTTP call")
  end.

(** The chat platform takes every reply. *)
Definition chat_ok (ev : event) : result unit := Ok tt.

(** The chat platform refuses an empty text, as it does for [""] and for
    [None], and takes the rest. *)
Definition chat_refuses_empty (ev : event) : result unit :=
  match ev with
  | ReplyText (JStr "") | ReplyText JNull => Raise (TelegramError "Message text is empty")
  | _ => Ok tt
  end.

(** The chat platform refuses the summary acknowledgement, as it does under
    flood control, and takes the rest. *)
Definition chat_refuses_ack (ev : event) : result unit :=
  match ev with
  | ReplyText (JStr t) =>
      if String.eqb t summary_ack then Raise (TelegramError "Flood control exceeded")
      else Ok tt
  | _ => Ok tt
  end.

(** The search provider is down: the sentinel is relayed and that is all. *)
Definition search_down (ev : event) : result Response :=
  match ev with
  | HttpGet _ _ _ => Raise (RequestError "connect timeout")
  | _ => Ok (ok_response (completion (JStr "unused")))
  end.

(** The chat platform is unreachable: every reply raises. *)
Definition chat_down (ev : event) : result unit :=
  match ev with
  | ReplyText _ => Raise (TelegramError "Timed out")
  | _ => Ok tt
  end.

(** The summarization provider is down; the search provider answers. *)
Definition summarizer_down (found : json) (ev : event) : result Response :=
  match ev with
  | HttpGet _ _ _ => Ok (ok_response found)
  | _ => Raise (RequestError "read timeout")
  end.

(** The search provider answers with the status [status]. *)
Definition search_status (status : Z) (found : json) (ev : event) : result Response :=
  match ev with
  | HttpGet _ _ _ => Ok {| status_code := status; json_body := Ok found |}
  | _ => Ok (ok_response (completion (JStr "unused")))
  end.

(** Initializing the application fails, as it does with a token the
    platform rejects. *)
Definition initialize_fails (ev : event) : result unit :=
  match ev with
  | AppInitialize => Raise (TelegramError "Unauthorized")
  | _ => Ok tt
  end.

(** Four results: a title that mentions an error, a plain one, one without
    url, and a fourth that is not even an object. *)
Definition four_results : json :=
  JDict [("web", JDict [("results",
    JList [JDict [("title", JStr "HTTP Error 404"); ("url", JStr "https://a.example")];
           JDict [("title", JStr "Rocq"); ("url", JStr "https://rocq-prover.org")];
           JDict [("title", JStr "Untitled")];
           JInt 4])])].

(** Stopping the application fails, as it does when it is not running. *)
Definition stop_fails (ev : event) : result unit :=
  match ev with
  | AppStop => Raise (RuntimeError "This Application is not running!")
  | _ => Ok tt
  end.

Definition text_update (t : string) : Update :=
  {| message := Some {| text := Some t |} |}.

(** The digest of [two_results]. *)
Definition two_results_digest : string :=
  "Rocq - https://rocq-prover.org" ++ PyStr.LF ++ "No title - https://example.org".

(** The trace of a run from the empty trace that reaches the delivery of
    [summary]: acknowledgement, search, acknowledgement, summarization and
    the delivery, with no log line. *)
Definition trace_to_delivery (env : Env) (query digest : string) (summary : json)
    : list event :=
  [ReplyText (JStr searching_ack);
   HttpGet brave_url (brave_headers env) (brave_params query);
   ReplyText (JStr summary_ack);
   HttpPost openai_url (openai_headers env) (openai_data digest);
   ReplyText summary].

(** * Properties *)

Example strip_spaces : PyStr.strip "  hello world  " = "hello world".
Proof. reflexivity. Qed.

Example strip_blank : PyStr.strip "   " = "".
Proof. reflexivity. Qed.

Example strip_nbsp_tab :
  PyStr.strip (PyStr.of_bytes [194; 160; 9; 120; 226; 128; 137; 10]) = "x".
Proof. reflexivity. Qed.

Example contains_ci :
  PyStr.contains "error" (PyStr.lower "An ERROR occurred") = true.
Proof. reflexivity. Qed.

Example chars_emoji : List.length (PyStr.chars "🔎 ok") = 4.
Proof. reflexivity. Qed.

Example search_run :
  brave_search (scripted (providers two_results JNull) chat_ok) "rocq" [] =
  ([HttpGet brave_url [("Accept", "application/json"); ("X-Subscription-Token", "brave-key")]
      [("q", JStr "rocq"); ("count", JInt 3)]],
   Ok ("Rocq - https://rocq-prover.org" ++ PyStr.LF ++ "No title - https://example.org")).
Proof. reflexivity. Qed.

Example happy_run :
  replies (fst (handle_message (scripted (providers two_results (JStr "A prover.")) chat_ok)
                  (text_update " rocq ") [])) =
  [JStr searching_ack; JStr summary_ack; JStr "A prover."].
Proof. reflexivity. Qed.

(** ** Strings *)

Lemma bytes_nonempty (c : ascii) (s : string) :
  PyStr.bytes (String c s) = nat_of_ascii c :: PyStr.bytes s.
Proof. reflexivity. Qed.

Lemma char_width_pos (c : nat) : exists w, PyStr.char_width c = S w.
Proof.
  unfold PyStr.char_width.
  destruct (Nat.ltb c 192); [now exists 0 |].
  destruct (Nat.ltb c 224); [now exists 1 |].
  destruct (Nat.ltb c 240); [now exists 2 | now exists 3].
Qed.

(** A non-empty string has a first character, and that character is not the
    empty string. *)
Lemma chars_nonempty (s : string) :
  s <> "" -> exists c cs, PyStr.chars s = c :: cs /\ c <> "".
Proof.
  destruct s as [| a s]; [congruence | intros _].
  unfold PyStr.chars. rewrite bytes_nonempty. cbn [List.length PyStr.chars_of].
  destruct (char_width_pos (nat_of_ascii a)) as [w ->].
  eexists _, _. split; [reflexivity |].
  cbn. discriminate.
Qed.

Lemma truthy_nonempty (s : string) : PyStr.truthy s = true <-> s <> "".
Proof. destruct s; cbn; split; congruence. Qed.

(** ** Search Stage *)

Section SearchStage.

Variable env : Env.

Lemma render_result_dict (d : list (string * json)) :
  render_result env (JDict d) = Ok (digest_line env d).
Proof. reflexivity. Qed.

Lemma render_result_ok (r : json) (line : string) :
  render_result env r = Ok line -> exists d, r = JDict d /\ line = digest_line env d.
Proof.
  destruct r; cbn; try discriminate.
  intros H. injection H as <-. now eexists.
Qed.

(** When every result renders, every result is an object and the lines are
    their digest lines. *)
Lemma mapM_render_ok (rs : list json) :
  forall lines, mapM (render_result env) rs = Ok lines ->
  exists ds, rs = map JDict ds /\ lines = map (digest_line env) ds.
Proof.
  induction rs as [| r rs IH]; intros lines H.
  - cbn in H. injection H as <-. now exists [].
  - cbn [mapM] in H.
    destruct (render_result env r) as [line |] eqn:Hr; [| discriminate].
    destruct (mapM (render_result env) rs) as [ls |] eqn:Hrs; [| discriminate].
    cbn in H. injection H as <-.
    apply render_result_ok in Hr as (d & -> & ->).
    destruct (IH ls eq_refl) as (ds & -> & ->).
    now exists (d :: ds).
Qed.

(** A string never renders as a list of results: its characters have no
    [get]. *)
Lemma mapM_render_chars (s : string) :
  s <> "" -> exists e, mapM (render_result env) (map JStr (PyStr.chars s)) = Raise e.
Proof.
  intros Hs. destruct (chars_nonempty s Hs) as (c & cs & -> & _).
  now exists AttributeError.
Qed.

Lemma concat_head_nonempty (c : string) (cs : list string) :
  c <> "" -> String.concat "" (firstn 3 (c :: cs)) <> "".
Proof.
  intros Hc. destruct c as [| a c]; [congruence |].
  change (firstn 3 (String a c :: cs)) with (String a c :: firstn 2 cs).
  destruct (firstn 2 cs); cbn; discriminate.
Qed.

(** What the [try] block computes from the decoded body: the digest of the
    first results listed, one to three of them, or the no-results sentinel. *)
Lemma search_digest_ok (data : json) (s : string) :
  search_digest env data = Ok s ->
  (exists l ds, listed_results data = Some l /\ firstn 3 l = map JDict ds /\
                1 <= List.length ds <= 3 /\
                s = PyStr.join PyStr.LF (map (digest_line env) ds))
  \/ (has_results data = Ok false /\ s = "No search results found.").
Proof.
  unfold search_digest, listed_results.
  destruct (has_results data) as [[|] |] eqn:Hc; cbn [rbind]; try discriminate.
  - intros H. left.
    unfold has_results in Hc.
    destruct (Py.contains "web" data) as [[|] |]; cbn [rbind] in Hc; try discriminate.
    destruct (Py.getitem data "web") as [web |]; cbn [rbind] in *; try discriminate.
    destruct (Py.contains "results" web) as [[|] |]; cbn [rbind] in Hc; try discriminate.
    destruct (Py.getitem web "results") as [results |]; cbn [rbind] in *; try discriminate.
    injection Hc as Ht.
    destruct results as [| | | | r | l |];
      cbn [Py.slice3 Py.iter rbind] in H; try discriminate.
    + (* a string *)
      apply truthy_nonempty in Ht.
      destruct (chars_nonempty r Ht) as (c & cs & Hcs & Hc0).
      rewrite Hcs in H.
      destruct (mapM_render_chars _ (concat_head_nonempty c cs Hc0)) as [e He].
      rewrite He in H. discriminate.
    + (* a list *)
      destruct (mapM (render_result env) (firstn 3 l)) as [lines |] eqn:Hm;
        cbn [rbind] in H; [| discriminate].
      injection H as <-.
      destruct (mapM_render_ok _ _ Hm) as (ds & Hds & ->).
      exists l, ds. split; [reflexivity |]. split; [exact Hds |]. split; [| reflexivity].
      assert (Hlen : List.length ds = List.length (firstn 3 l))
        by (rewrite Hds; now rewrite length_map).
      rewrite Hlen, length_firstn.
      destruct l as [| x l]; [discriminate |]. cbn [List.length]. lia.
  - intros H. injection H as <-. right. now split.
Qed.

(** [brave_search], unfolded: one request, then at most one log line. *)
Lemma brave_search_unfold (query : string) (tr : list event) :
  let tr1 := (tr ++ [HttpGet brave_url (brave_headers env) (brave_params query)])%list in
  brave_search env query tr =
  match search_result env (http_answer env tr1) with
  | Ok s => (tr1, Ok s)
  | Raise e =>
      if isinstance_HTTPError e
      then ((tr1 ++ [LogError "Brave search error: " e])%list,
            Ok "Search service temporarily unavailable.")
      else ((tr1 ++ [LogError "Unexpected error in brave_search: " e])%list,
            Ok "An error occurred during search.")
  end.
Proof.
  cbv zeta.
  unfold brave_search, try_except2, bind, http_get, lift, search_result, emit, ret.
  destruct (http_answer env _) as [resp |]; cbn [rbind]; [| reflexivity].
  destruct (raise_for_status resp); cbn [rbind]; [| reflexivity].
  destruct (json_body resp) as [data |]; cbn [rbind]; [| reflexivity].
  destruct (search_digest env data); reflexivity.
Qed.

End SearchStage.

(** Log lines are neither replies nor provider requests. *)
Lemma logs_silent (logs : list event) :
  forallb is_log logs = true ->
  replies logs = [] /\ search_calls logs = [] /\ summarize_calls logs = [].
Proof.
  induction logs as [| ev logs IH]; [now cbn |].
  cbn [forallb]. intros H. apply andb_prop in H as [Hev Hl].
  destruct (IH Hl) as (Hr & Hs & Hp).
  destruct ev; cbn in Hev; try discriminate; cbn; now rewrite ?Hr, ?Hs, ?Hp.
Qed.

(** C5.  For every query and every answer of the search provider,
    [brave_search] never raises; what it adds to the trace holds exactly one
    outbound call, the GET to the search provider, and no reply; and it
    returns either the digest of the first results the provider listed, one
    to three lines of the form [<title> - <url>] with [No title] and [No URL]
    for a missing field, or the no-results sentinel, or one of the two
    failure sentinels. *)
Theorem brave_search_outcome (env : Env) (query : string) (tr : list event) :
  let get := HttpGet brave_url (brave_headers env) (brave_params query) in
  exists s d,
    brave_search env query tr = ((tr ++ d)%list, Ok s)
    /\ search_calls d = [get] /\ summarize_calls d = [] /\ replies d = []
    /\ ((exists resp data l ds,
           http_answer env (tr ++ [get])%list = Ok resp /\ json_body resp = Ok data /\
           listed_results data = Some l /\ firstn 3 l = map JDict ds /\
           1 <= List.length ds <= 3 /\
           s = PyStr.join PyStr.LF (map (digest_line env) ds))
        \/ s = "No search results found."
        \/ s = "Search service temporarily unavailable."
        \/ s = "An error occurred during search.").
Proof.
  cbv zeta.
  pose proof (brave_search_unfold env query tr) as H. cbv zeta in H.
  destruct (search_result env _) as [s | e] eqn:Hs.
  - exists s, [HttpGet brave_url (brave_headers env) (brave_params query)].
    split; [exact H |]. repeat (split; [reflexivity |]).
    unfold search_result in Hs.
    destruct (http_answer env _) as [resp |]; cbn [rbind] in Hs; [| discriminate].
    destruct (raise_for_status resp); cbn [rbind] in Hs; [| discriminate].
    destruct (json_body resp) as [data |] eqn:Hbody; cbn [rbind] in Hs; [| discriminate].
    destruct (search_digest_ok env data s Hs) as [(l & ds & Hl & Hds & Hn & ->) | [_ ->]].
    + left. now exists resp, data, l, ds.
    + right; now left.
  - destruct (isinstance_HTTPError e).
    + exists "Search service temporarily unavailable.",
             [HttpGet brave_url (brave_headers env) (brave_params query);
              LogError "Brave search error: " e].
      rewrite H, <- app_assoc. repeat (split; [reflexivity |]).
      right; right; left. reflexivity.
    + exists "An error occurred during search.",
             [HttpGet brave_url (brave_headers env) (brave_params query);
              LogError "Unexpected error in brave_search: " e].
      rewrite H, <- app_assoc. repeat (split; [reflexivity |]).
      right; right; right. reflexivity.
Qed.

(** ** Summarization Stage *)

Section SummarizationStage.

Variable env : Env.


(** [summarize_with_openai], unfolded: one request, then at most one log
    line. *)
Lemma summarize_unfold (text : string) (tr : list event) :
  let tr1 := (tr ++ [HttpPost openai_url (openai_headers env) (openai_data text)])%list in
  summarize_with_openai env text tr =
  match summary_result (http_answer env tr1) with
  | Ok v => (tr1, Ok v)
  | Raise e =>
      if isinstance_HTTPError e
      then ((tr1 ++ [LogError "OpenAI API error: " e])%list,
            Ok (JStr "Summary service temporarily unavailable."))
      else ((tr1 ++ [LogError "Unexpected error in summarize_with_openai: " e])%list,
            Ok (JStr "An error occurred while generating summary."))
  end.
Proof.
  cbv zeta.
  unfold summarize_with_openai, try_except2, bind, http_post, lift, summary_result, emit, ret.
  destruct (http_answer env _) as [resp |]; cbn [rbind]; [| reflexivity].
  destruct (raise_for_status resp); cbn [rbind]; [| reflexivity].
  destruct (json_body resp) as [res |]; cbn [rbind]; [| reflexivity].
  destruct (summary_of res); reflexivity.
Qed.

End SummarizationStage.




(** ** Dispatch Stage *)

Section DispatchStage.

Variable env : Env.

Lemma update_text_message (u : Update) (t : string) :
  update_text u = Some t -> exists m, message u = Some m /\ text m = Some t.
Proof.
  unfold update_text. destruct (message u) as [m |]; [| discriminate].
  intros H. now exists m.
Qed.

(** Without a text, or with the empty text, the [try] block returns at
    once. *)
Lemma handle_message_try_silent (u : Update) (tr : list event) :
  update_text u = None \/ update_text u = Some "" ->
  handle_message_try env u tr = (tr, Ok tt).
Proof.
  unfold update_text, handle_message_try.
  destruct (message u) as [m |]; [| reflexivity].
  destruct (text m) as [t |]; [| reflexivity].
  intros [H | H]; [discriminate |]. injection H as ->. reflexivity.
Qed.

(** With a text that is only white space, the block asks for a query. *)
Lemma handle_message_try_blank (u : Update) (t : string) (tr : list event) :
  update_text u = Some t -> t <> "" -> PyStr.strip t = "" ->
  handle_message_try env u tr =
  let tr1 := (tr ++ [ReplyText (JStr query_prompt)])%list in (tr1, call_answer env tr1).
Proof.
  intros Hu Ht Hs. destruct (update_text_message u t Hu) as (m & Hm & Htx).
  unfold handle_message_try, reply_text. rewrite Hm, Htx.
  apply truthy_nonempty in Ht. rewrite Ht, Hs. reflexivity.
Qed.

(** With a query, the block runs the pipeline; every reply may raise and end
    it. *)
Lemma handle_message_try_query (u : Update) (t : string) (tr : list event) :
  update_text u = Some t -> t <> "" -> PyStr.strip t <> "" ->
  handle_message_try env u tr =
  let tr1 := (tr ++ [ReplyText (JStr searching_ack)])%list in
  match call_answer env tr1 with
  | Raise e => (tr1, Raise e)
  | Ok _ =>
      match brave_search env (PyStr.strip t) tr1 with
      | (tr2, Raise e) => (tr2, Raise e)
      | (tr2, Ok results) =>
          if is_failure_sentinel results then
            let tr3 := (tr2 ++ [ReplyText (JStr results)])%list in (tr3, call_answer env tr3)
          else
            let tr3 := (tr2 ++ [ReplyText (JStr summary_ack)])%list in
            match call_answer env tr3 with
            | Raise e => (tr3, Raise e)
            | Ok _ =>
                match summarize_with_openai env results tr3 with
                | (tr4, Raise e) => (tr4, Raise e)
                | (tr4, Ok summary) =>
                    let tr5 := (tr4 ++ [ReplyText summary])%list in (tr5, call_answer env tr5)
                end
            end
      end
  end.
Proof.
  intros Hu Ht Hs. destruct (update_text_message u t Hu) as (m & Hm & Htx).
  unfold handle_message_try, reply_text. rewrite Hm, Htx.
  apply truthy_nonempty in Ht, Hs. rewrite Ht, Hs. cbn [negb].
  unfold bind, call. cbv zeta.
  destruct (call_answer env _) as [[] |]; [| reflexivity].
  destruct (brave_search env _ _) as [tr2 [results |]]; [| reflexivity].
  destruct (is_failure_sentinel results); [reflexivity |].
  destruct (call_answer env _) as [[] |]; [| reflexivity].
  destruct (summarize_with_openai env _ _) as [tr4 [summary |]]; reflexivity.
Qed.

(** The block can only raise for an update that has a message. *)
Lemma handle_message_try_raises (u : Update) (tr tr' : list event) (e : exn) :
  handle_message_try env u tr = (tr', Raise e) -> exists m, message u = Some m.
Proof.
  unfold handle_message_try.
  destruct (message u) as [m |]; [now exists m | discriminate].
Qed.

(** [handle_message] is its [try] block, followed on an exception by one log
    line and the apology. *)
Lemma handle_message_unfold (u : Update) (tr : list event) :
  handle_message env u tr =
  match handle_message_try env u tr with
  | (tr', Ok a) => (tr', Ok a)
  | (tr', Raise e) => (apologize e tr', call_answer env (apologize e tr'))
  end.
Proof.
  unfold handle_message, try_except.
  destruct (handle_message_try env u tr) as [tr' [a | e]] eqn:H; [reflexivity |].
  destruct (handle_message_try_raises _ _ _ _ H) as [m Hm].
  unfold isinstance_Exception, bind, emit, reply_text, call, apologize.
  rewrite Hm, <- app_assoc. reflexivity.
Qed.

End DispatchStage.

(** ** Traces of the stages *)

Lemma replies_app (a b : list event) : replies (a ++ b) = (replies a ++ replies b)%list.
Proof. unfold replies. now rewrite flat_map_app. Qed.

Lemma search_calls_app (a b : list event) :
  search_calls (a ++ b) = (search_calls a ++ search_calls b)%list.
Proof. unfold search_calls. now rewrite filter_app. Qed.

Lemma summarize_calls_app (a b : list event) :
  summarize_calls (a ++ b) = (summarize_calls a ++ summarize_calls b)%list.
Proof. unfold summarize_calls. now rewrite filter_app. Qed.

(** The Search Stage returns, having added its request and log lines. *)
Lemma brave_search_trace (env : Env) (query : string) (tr : list event) :
  exists s logs,
    brave_search env query tr =
      ((tr ++ HttpGet brave_url (brave_headers env) (brave_params query) :: logs)%list, Ok s)
    /\ forallb is_log logs = true.
Proof.
  pose proof (brave_search_unfold env query tr) as H. cbv zeta in H.
  destruct (search_result env _) as [s | e].
  - exists s, []. now split.
  - destruct (isinstance_HTTPError e); eexists _, [_];
      rewrite H, <- app_assoc; now split.
Qed.

(** The Summarization Stage returns, having added its request and log
    lines. *)
Lemma summarize_trace (env : Env) (text : string) (tr : list event) :
  exists v logs,
    summarize_with_openai env text tr =
      ((tr ++ HttpPost openai_url (openai_headers env) (openai_data text) :: logs)%list, Ok v)
    /\ forallb is_log logs = true.
Proof.
  pose proof (summarize_unfold env text tr) as H. cbv zeta in H.
  destruct (summary_result _) as [v | e].
  - exists v, []. now split.
  - destruct (isinstance_HTTPError e); eexists _, [_];
      rewrite H, <- app_assoc; now split.
Qed.

Ltac stage_trace H :=
  match type of H with
  | brave_search ?env ?q ?tr = (?tr2, Ok ?s) =>
      let s' := fresh "s" in
      let logs := fresh "logs" in
      let E := fresh "E" in
      let L := fresh "Hlogs" in
      destruct (brave_search_trace env q tr) as (s' & logs & E & L);
      rewrite H in E; injection E as -> _
  | summarize_with_openai ?env ?x ?tr = (?tr2, Ok ?v) =>
      let v' := fresh "v" in
      let logs := fresh "logs" in
      let E := fresh "E" in
      let L := fresh "Hlogs" in
      destruct (summarize_trace env x tr) as (v' & logs & E & L);
      rewrite H in E; injection E as -> _
  end.

(** C9.  For an update with no text field at all (no message, or a message
    without text), [handle_message] returns with the trace unchanged: no
    reply is sent and no provider is called. *)
Theorem handle_message_no_text (env : Env) (u : Update) (tr : list event) :
  update_text u = None ->
  handle_message env u tr = (tr, Ok tt).
Proof.
  intros H. rewrite handle_message_unfold.
  now rewrite handle_message_try_silent by (now left).
Qed.

Lemma handle_message_no_text_witness :
  update_text {| message := Some {| text := None |} |} = None /\
  handle_message (scripted (providers two_results JNull) chat_ok)
    {| message := Some {| text := None |} |} [] = ([], Ok tt).
Proof.
  split; [reflexivity |].
  apply (handle_message_no_text (scripted (providers two_results JNull) chat_ok)
           {| message := Some {| text := None |} |} []).
  reflexivity.
Defined.

(** With a non-empty text the first thing the handler does is reply: with
    the prompt for a blank text, with the search acknowledgement otherwise. *)
Lemma handle_message_first_reply (env : Env) (u : Update) (t : string) (tr : list event) :
  update_text u = Some t -> t <> "" ->
  exists first rest,
    fst (handle_message env u tr) = (tr ++ ReplyText (JStr first) :: rest)%list.
Proof.
  intros Hu Ht. rewrite handle_message_unfold.
  assert (Hshape : exists first rest,
             fst (handle_message_try env u tr) = (tr ++ ReplyText (JStr first) :: rest)%list).
  { destruct (string_dec (PyStr.strip t) "") as [Hs | Hs].
    - rewrite (handle_message_try_blank env u t tr Hu Ht Hs). now exists query_prompt, [].
    - rewrite (handle_message_try_query env u t tr Hu Ht Hs). cbv zeta.
      exists searching_ack.
      destruct (call_answer env _) as [[] |]; [| now exists []].
      destruct (brave_search_trace env (PyStr.strip t)
                  (tr ++ [ReplyText (JStr searching_ack)])) as (s & logs & -> & _).
      destruct (is_failure_sentinel s).
      + eexists. cbn [fst]. now rewrite <- !app_assoc.
      + destruct (call_answer env _) as [[] |].
        * match goal with
          | |- context [summarize_with_openai env s ?tr3] =>
              destruct (summarize_trace env s tr3) as (v & logs' & -> & _)
          end.
          eexists. cbn [fst]. now rewrite <- !app_assoc.
        * eexists. cbn [fst]. now rewrite <- !app_assoc. }
  destruct Hshape as (first & rest & Hshape). exists first.
  destruct (handle_message_try env u tr) as [tr' [[] | e]]; cbn [fst] in *.
  - now exists rest.
  - unfold apologize. rewrite Hshape, <- app_assoc. now eexists.
Qed.

(** The stages return, so the only steps of the [try] block that raise are
    the replies: when the block raises, the last thing it did is a call of
    [reply_text], and the exception is the one that call raised. *)
Lemma handle_message_try_raises_at_reply (env : Env) (u : Update)
    (tr tr' : list event) (e : exn) :
  handle_message_try env u tr = (tr', Raise e) ->
  exists before x, tr' = (before ++ [ReplyText x])%list /\ call_answer env tr' = Raise e.
Proof.
  intros H.
  destruct (update_text u) as [t |] eqn:Hu.
  2: { rewrite handle_message_try_silent in H by (now left). discriminate. }
  destruct (string_dec t "") as [-> | Ht].
  { rewrite handle_message_try_silent in H by (now right). discriminate. }
  destruct (string_dec (PyStr.strip t) "") as [Hs | Hs].
  - rewrite (handle_message_try_blank env u t tr Hu Ht Hs) in H. cbv zeta in H.
    injection H as <- H. now eexists _, _.
  - rewrite (handle_message_try_query env u t tr Hu Ht Hs) in H. cbv zeta in H.
    destruct (call_answer env (tr ++ [ReplyText (JStr searching_ack)])%list)
      as [[] | e1] eqn:H1.
    2: { injection H as <- <-. now eexists _, _. }
    destruct (brave_search_trace env (PyStr.strip t)
                (tr ++ [ReplyText (JStr searching_ack)])) as (s & logs & Hb & _).
    rewrite Hb in H.
    destruct (is_failure_sentinel s).
    { injection H as <- H. now eexists _, _. }
    match type of H with
    | context [match call_answer env ?x with _ => _ end] =>
        destruct (call_answer env x) as [[] | e2] eqn:H2
    end.
    2: { injection H as <- <-. now eexists _, _. }
    match type of H with
    | context [summarize_with_openai env s ?x] =>
        destruct (summarize_trace env s x) as (v & logs' & Hp & _)
    end.
    rewrite Hp in H. injection H as <- H. now eexists _, _.
Qed.

(** C2, amended.  Whatever exception the [try] block of [handle_message]
    raises, at whatever step, the handler catches it, logs it and sends the
    apology, one reply and nothing else; for every update whose text is not
    empty at least one reply is sent; and the silent path, which sends none
    and does nothing else either, is taken by an update without message,
    without text or with the empty text. *)
Theorem handle_message_catches_and_replies (env : Env) (u : Update) (tr : list event) :
  (forall tr' e,
      handle_message_try env u tr = (tr', Raise e) ->
      let tr'' :=
        (tr' ++ [LogError "Error in handle_message: " e; ReplyText (JStr apology)])%list in
      handle_message env u tr = (tr'', call_answer env tr''))
  /\ (forall t,
        update_text u = Some t -> t <> "" ->
        exists d, fst (handle_message env u tr) = (tr ++ d)%list
                  /\ 1 <= List.length (replies d))
  /\ (update_text u = None \/ update_text u = Some "" ->
        handle_message env u tr = (tr, Ok tt)).
Proof.
  split; [| split].
  - intros tr' e H. cbv zeta. rewrite handle_message_unfold, H. reflexivity.
  - intros t Hu Ht.
    destruct (handle_message_first_reply env u t tr Hu Ht) as (first & rest & H).
    exists (ReplyText (JStr first) :: rest). split; [exact H |].
    cbn. lia.
  - intros Hu. rewrite handle_message_unfold.
    now rewrite (handle_message_try_silent env u tr Hu).
Qed.

(** A run in which the block raises: the model's content is [None], the chat
    platform refuses it, and the apology follows. *)
Lemma handle_message_catches_and_replies_witness :
  let env := scripted (providers two_results JNull) chat_refuses_empty in
  let u := text_update "rocq" in
  handle_message_try env u [] =
    (trace_to_delivery env "rocq" two_results_digest JNull,
     Raise (TelegramError "Message text is empty"))
  /\ handle_message env u [] =
       ((trace_to_delivery env "rocq" two_results_digest JNull ++
         [LogError "Error in handle_message: " (TelegramError "Message text is empty");
          ReplyText (JStr apology)])%list, Ok tt)
  /\ (exists d, fst (handle_message env u []) = d /\ 1 <= List.length (replies d))
  /\ handle_message env {| message := None |} [] = ([], Ok tt).
Proof.
  cbv zeta.
  pose proof (handle_message_catches_and_replies
                (scripted (providers two_results JNull) chat_refuses_empty)
                (text_update "rocq") []) as (Hcatch & Hreply & _).
  pose proof (handle_message_catches_and_replies
                (scripted (providers two_results JNull) chat_refuses_empty)
                {| message := None |} []) as (_ & _ & Hnone).
  assert (Hraise : handle_message_try
                     (scripted (providers two_results JNull) chat_refuses_empty)
                     (text_update "rocq") [] =
                   (trace_to_delivery
                      (scripted (providers two_results JNull) chat_refuses_empty)
                      "rocq" two_results_digest JNull,
                    Raise (TelegramError "Message text is empty")))
    by (vm_compute; reflexivity).
  split; [exact Hraise |]. split; [| split].
  - exact (Hcatch _ _ Hraise).
  - destruct (Hreply "rocq" eq_refl) as (d & Hd & Hn); [discriminate |].
    exists d. split; [exact Hd | exact Hn].
  - apply Hnone. left. reflexivity.
Defined.

(** C2 as stated fails: an update may carry a text field that is the empty
    string; the guard of the handler takes it for no text, and no reply is
    sent. *)
Lemma carries_text_counterexample :
  let env := scripted (providers two_results (JStr "A prover.")) chat_ok in
  update_text (text_update "") = Some ""
  /\ handle_message env (text_update "") [] = ([], Ok tt)
  /\ List.length (replies (fst (handle_message env (text_update "") []))) = 0.
Proof. cbv zeta. repeat split. Qed.

(** Case analysis on the answer the goal is waiting for. *)
Ltac on_answer e :=
  match goal with
  | |- context [match call_answer ?env ?x with _ => _ end] =>
      destruct (call_answer env x) as [[] | e] eqn:?
  end.

Lemma summarize_calls_search (env : Env) (query : string) (logs : list event) :
  forallb is_log logs = true ->
  summarize_calls (HttpGet brave_url (brave_headers env) (brave_params query) :: logs) = [].
Proof. intros H. destruct (logs_silent logs H) as (_ & _ & Hp). cbn. exact Hp. Qed.

(** C4.  When the Search Stage, run for the message, returns a string that
    the marker test flags, the next thing the handler does is hand that very
    string to [reply_text]; after it comes nothing, or, if that reply raised,
    the handler's log line and apology; no request to the summarization
    provider is made. *)
Theorem failure_sentinel_relayed (env : Env) (u : Update) (t : string)
    (tr tr2 : list event) (s : string) :
  update_text u = Some t -> t <> "" -> PyStr.strip t <> "" ->
  call_answer env (tr ++ [ReplyText (JStr searching_ack)])%list = Ok tt ->
  brave_search env (PyStr.strip t) (tr ++ [ReplyText (JStr searching_ack)])%list
    = (tr2, Ok s) ->
  is_failure_sentinel s = true ->
  exists rest,
    fst (handle_message env u tr) = (tr2 ++ ReplyText (JStr s) :: rest)%list
    /\ (rest = [] \/
        exists e, rest = [LogError "Error in handle_message: " e; ReplyText (JStr apology)])
    /\ summarize_calls (fst (handle_message env u tr)) = summarize_calls tr.
Proof.
  intros Hu Ht Hs Hack Hsearch Hflag.
  rewrite handle_message_unfold, (handle_message_try_query env u t tr Hu Ht Hs).
  cbv zeta. rewrite Hack, Hsearch, Hflag.
  stage_trace Hsearch.
  on_answer e; cbn [fst].
  - exists []. split; [reflexivity |]. split; [now left |].
    rewrite !summarize_calls_app, summarize_calls_search by assumption.
    cbn. now rewrite !app_nil_r.
  - exists [LogError "Error in handle_message: " e; ReplyText (JStr apology)].
    unfold apologize. split; [now rewrite <- app_assoc |]. split; [right; now exists e |].
    rewrite !summarize_calls_app, summarize_calls_search by assumption.
    cbn. now rewrite !app_nil_r.
Qed.

Lemma failure_sentinel_relayed_witness :
  let env := scripted search_down chat_ok in
  exists rest,
    fst (handle_message env (text_update "xyz") []) =
      ([ReplyText (JStr searching_ack);
        HttpGet brave_url (brave_headers env) (brave_params "xyz");
        LogError "Brave search error: " (RequestError "connect timeout")]
       ++ ReplyText (JStr "Search service temporarily unavailable.") :: rest)%list
    /\ (rest = [] \/
        exists e, rest = [LogError "Error in handle_message: " e; ReplyText (JStr apology)])
    /\ summarize_calls (fst (handle_message env (text_update "xyz") [])) = summarize_calls [].
Proof.
  cbv zeta.
  apply (failure_sentinel_relayed (scripted search_down chat_ok) (text_update "xyz") "xyz" []).
  - reflexivity.
  - discriminate.
  - vm_compute. discriminate.
  - reflexivity.
  - vm_compute. reflexivity.
  - vm_compute. reflexivity.
Defined.

(** The replies of a run that reaches the delivery of [summary]: the two
    acknowledgements and the summary, then the apology if the delivery
    raised. *)
Lemma pipeline_replies (env : Env) (u : Update) (t : string)
    (tr tr2 tr4 : list event) (s : string) (v : json) :
  update_text u = Some t -> t <> "" -> PyStr.strip t <> "" ->
  call_answer env (tr ++ [ReplyText (JStr searching_ack)])%list = Ok tt ->
  brave_search env (PyStr.strip t) (tr ++ [ReplyText (JStr searching_ack)])%list
    = (tr2, Ok s) ->
  is_failure_sentinel s = false ->
  call_answer env (tr2 ++ [ReplyText (JStr summary_ack)])%list = Ok tt ->
  summarize_with_openai env s (tr2 ++ [ReplyText (JStr summary_ack)])%list = (tr4, Ok v) ->
  exists d,
    fst (handle_message env u tr) = (tr ++ d)%list
    /\ replies d =
       match call_answer env (tr4 ++ [ReplyText v])%list with
       | Ok _ => [JStr searching_ack; JStr summary_ack; v]
       | Raise _ => [JStr searching_ack; JStr summary_ack; v; JStr apology]
       end
    /\ search_calls d = [HttpGet brave_url (brave_headers env) (brave_params (PyStr.strip t))]
    /\ summarize_calls d = [HttpPost openai_url (openai_headers env) (openai_data s)].
Proof.
  intros Hu Ht Hs Hack Hsearch Hflag Hack2 Hsum.
  rewrite handle_message_unfold, (handle_message_try_query env u t tr Hu Ht Hs).
  cbv zeta. rewrite Hack, Hsearch, Hflag, Hack2, Hsum.
  stage_trace Hsearch. stage_trace Hsum.
  destruct (logs_silent logs Hlogs) as (Hr1 & Hs1 & Hp1).
  destruct (logs_silent logs0 Hlogs0) as (Hr2 & Hs2 & Hp2).
  on_answer e; cbn [fst]; unfold apologize; rewrite <- !app_assoc;
    eexists; (split; [reflexivity |]);
    rewrite ?replies_app, ?search_calls_app, ?summarize_calls_app;
    cbn [replies search_calls summarize_calls flat_map filter app];
    fold (replies logs) (replies logs0) (search_calls logs) (search_calls logs0)
         (summarize_calls logs) (summarize_calls logs0);
    rewrite Hr1, Hr2, Hs1, Hs2, Hp1, Hp2; repeat split.
Qed.

(** C7, amended.  When the search returns a string without failure marker
    and the summarization call returns [v], the replies are the search
    acknowledgement, the summary acknowledgement and [v], in this order:
    exactly these three when the delivery of [v] does not raise, and a fourth
    one, the apology, when it does. *)
Theorem three_replies_in_order (env : Env) (u : Update) (t : string)
    (tr tr2 tr4 : list event) (s : string) (v : json) :
  update_text u = Some t -> t <> "" -> PyStr.strip t <> "" ->
  call_answer env (tr ++ [ReplyText (JStr searching_ack)])%list = Ok tt ->
  brave_search env (PyStr.strip t) (tr ++ [ReplyText (JStr searching_ack)])%list
    = (tr2, Ok s) ->
  is_failure_sentinel s = false ->
  call_answer env (tr2 ++ [ReplyText (JStr summary_ack)])%list = Ok tt ->
  summarize_with_openai env s (tr2 ++ [ReplyText (JStr summary_ack)])%list = (tr4, Ok v) ->
  exists d,
    fst (handle_message env u tr) = (tr ++ d)%list
    /\ replies d =
       match call_answer env (tr4 ++ [ReplyText v])%list with
       | Ok _ => [JStr searching_ack; JStr summary_ack; v]
       | Raise _ => [JStr searching_ack; JStr summary_ack; v; JStr apology]
       end.
Proof.
  intros Hu Ht Hs Hack Hsearch Hflag Hack2 Hsum.
  destruct (pipeline_replies env u t tr tr2 tr4 s v Hu Ht Hs Hack Hsearch Hflag Hack2 Hsum)
    as (d & Hd & Hr & _).
  now exists d.
Qed.

Ltac by_run := first [reflexivity | discriminate | vm_compute; first [reflexivity | discriminate]].

Lemma three_replies_in_order_witness :
  let env := scripted (providers two_results (JStr "A prover.")) chat_ok in
  exists d,
    fst (handle_message env (text_update " rocq ") []) = ([] ++ d)%list
    /\ replies d =
       match call_answer env (trace_to_delivery env "rocq" two_results_digest
                                (JStr "A prover.")) with
       | Ok _ => [JStr searching_ack; JStr summary_ack; JStr "A prover."]
       | Raise _ => [JStr searching_ack; JStr summary_ack; JStr "A prover."; JStr apology]
       end.
Proof.
  cbv zeta.
  apply (three_replies_in_order
           (scripted (providers two_results (JStr "A prover.")) chat_ok)
           (text_update " rocq ") " rocq " []
           [ReplyText (JStr searching_ack);
            HttpGet brave_url
              (brave_headers (scripted (providers two_results (JStr "A prover.")) chat_ok))
              (brave_params "rocq")]
           [ReplyText (JStr searching_ack);
            HttpGet brave_url
              (brave_headers (scripted (providers two_results (JStr "A prover.")) chat_ok))
              (brave_params "rocq");
            ReplyText (JStr summary_ack);
            HttpPost openai_url
              (openai_headers (scripted (providers two_results (JStr "A prover.")) chat_ok))
              (openai_data two_results_digest)]
           two_results_digest (JStr "A prover.")); by_run.
Defined.

(** C7 as stated fails: the search succeeds with results and the
    summarization call returns, here with the content [None]; the chat
    platform refuses that text, the delivery raises, and the handler sends
    the apology as a fourth reply. *)
Lemma three_replies_counterexample :
  let env := scripted (providers two_results JNull) chat_refuses_empty in
  let tr2 := [ReplyText (JStr searching_ack);
              HttpGet brave_url (brave_headers env) (brave_params "rocq")] in
  let tr3 := (tr2 ++ [ReplyText (JStr summary_ack)])%list in
  brave_search env "rocq" [ReplyText (JStr searching_ack)] = (tr2, Ok two_results_digest)
  /\ is_failure_sentinel two_results_digest = false
  /\ summarize_with_openai env two_results_digest tr3 =
       ((tr3 ++ [HttpPost openai_url (openai_headers env) (openai_data two_results_digest)])%list,
        Ok JNull)
  /\ replies (fst (handle_message env (text_update "rocq") [])) =
       [JStr searching_ack; JStr summary_ack; JNull; JStr apology]
  /\ replies (fst (handle_message env (text_update "rocq") [])) <>
       [JStr searching_ack; JStr summary_ack; JNull].
Proof.
  cbv zeta. repeat split; by_run.
Qed.

(** C8, amended.  For a message whose text is not empty but is empty after
    trimming, the handler replies ["Please send a search query."] and calls
    no provider; this is the only reply when sending it does not raise, and
    the apology follows when it does. *)
Theorem blank_text_prompt (env : Env) (u : Update) (t : string) (tr : list event) :
  update_text u = Some t -> t <> "" -> PyStr.strip t = "" ->
  exists d,
    fst (handle_message env u tr) = (tr ++ d)%list
    /\ replies d =
       match call_answer env (tr ++ [ReplyText (JStr query_prompt)])%list with
       | Ok _ => [JStr query_prompt]
       | Raise _ => [JStr query_prompt; JStr apology]
       end
    /\ search_calls d = [] /\ summarize_calls d = [].
Proof.
  intros Hu Ht Hs.
  rewrite handle_message_unfold, (handle_message_try_blank env u t tr Hu Ht Hs).
  cbv zeta. on_answer e; cbn [fst]; unfold apologize; rewrite <- ?app_assoc;
    eexists; (split; [reflexivity |]); repeat split.
Qed.

Lemma blank_text_prompt_witness :
  let env := scripted (providers two_results JNull) chat_ok in
  exists d,
    fst (handle_message env (text_update "   ") []) = ([] ++ d)%list
    /\ replies d =
       match call_answer env ([] ++ [ReplyText (JStr query_prompt)])%list with
       | Ok _ => [JStr query_prompt]
       | Raise _ => [JStr query_prompt; JStr apology]
       end
    /\ search_calls d = [] /\ summarize_calls d = [].
Proof.
  cbv zeta.
  apply (blank_text_prompt (scripted (providers two_results JNull) chat_ok)
           (text_update "   ") "   " []); by_run.
Defined.

(** C8 as stated fails: the empty text is empty after trimming, and the
    handler returns without any reply. *)
Lemma blank_text_counterexample :
  let env := scripted (providers two_results JNull) chat_ok in
  update_text (text_update "") = Some ""
  /\ PyStr.strip "" = ""
  /\ handle_message env (text_update "") [] = ([], Ok tt)
  /\ replies (fst (handle_message env (text_update "") [])) <> [JStr query_prompt].
Proof.
  cbv zeta. repeat split; by_run.
Qed.

(** A well-formed answer without results makes the Search Stage return the
    no-results sentinel, with no log line. *)
Lemma brave_search_no_results (env : Env) (query : string) (tr : list event)
    (resp : Response) (data : json) :
  let get := HttpGet brave_url (brave_headers env) (brave_params query) in
  http_answer env (tr ++ [get])%list = Ok resp ->
  raise_for_status resp = Ok tt ->
  json_body resp = Ok data ->
  has_results data = Ok false ->
  brave_search env query tr = ((tr ++ [get])%list, Ok "No search results found.").
Proof.
  cbv zeta. intros Hans Hst Hbody Hres.
  pose proof (brave_search_unfold env query tr) as H. cbv zeta in H.
  unfold search_result in H. rewrite Hans in H. cbn [rbind] in H.
  rewrite Hst in H. cbn [rbind] in H. rewrite Hbody in H. cbn [rbind] in H.
  unfold search_digest in H. rewrite Hres in H. exact H.
Qed.

Lemma no_results_not_failure : is_failure_sentinel "No search results found." = false.
Proof. reflexivity. Qed.

(** C10, amended.  When the search provider returns a well-formed answer
    without results, the Search Stage's output ["No search results found."]
    does not match the failure-marker test; provided the summary
    acknowledgement does not raise, the handler calls the Summarization Stage
    on that sentinel text and hands its output [v] to [reply_text]: [v] is the
    final reply when its delivery does not raise, and the apology follows
    when it does. *)
Theorem no_results_still_summarized (env : Env) (u : Update) (t : string)
    (tr tr4 : list event) (resp : Response) (data : json) (v : json) :
  let ack := ReplyText (JStr searching_ack) in
  let get := HttpGet brave_url (brave_headers env) (brave_params (PyStr.strip t)) in
  let ack2 := ReplyText (JStr summary_ack) in
  update_text u = Some t -> t <> "" -> PyStr.strip t <> "" ->
  call_answer env (tr ++ [ack])%list = Ok tt ->
  http_answer env (tr ++ [ack; get])%list = Ok resp ->
  raise_for_status resp = Ok tt ->
  json_body resp = Ok data ->
  has_results data = Ok false ->
  call_answer env (tr ++ [ack; get; ack2])%list = Ok tt ->
  summarize_with_openai env "No search results found." (tr ++ [ack; get; ack2])%list
    = (tr4, Ok v) ->
  is_failure_sentinel "No search results found." = false
  /\ exists d,
       fst (handle_message env u tr) = (tr ++ d)%list
       /\ summarize_calls d =
          [HttpPost openai_url (openai_headers env) (openai_data "No search results found.")]
       /\ replies d =
          match call_answer env (tr4 ++ [ReplyText v])%list with
          | Ok _ => [JStr searching_ack; JStr summary_ack; v]
          | Raise _ => [JStr searching_ack; JStr summary_ack; v; JStr apology]
          end.
Proof.
  cbv zeta. intros Hu Ht Hs Hack Hans Hst Hbody Hres Hack2 Hsum.
  split; [exact no_results_not_failure |].
  assert (Hsearch :
            brave_search env (PyStr.strip t) (tr ++ [ReplyText (JStr searching_ack)])%list =
            (((tr ++ [ReplyText (JStr searching_ack)]) ++
              [HttpGet brave_url (brave_headers env) (brave_params (PyStr.strip t))])%list,
             Ok "No search results found.")).
  { apply (brave_search_no_results env _ _ resp data); try assumption.
    now rewrite <- app_assoc. }
  destruct (pipeline_replies env u t tr _ tr4 _ v Hu Ht Hs Hack Hsearch
              no_results_not_failure) as (d & Hd & Hr & _ & Hp).
  - now rewrite <- !app_assoc.
  - now rewrite <- !app_assoc.
  - now exists d.
Qed.

Lemma no_results_still_summarized_witness :
  let env := scripted (providers no_results (JStr "Nothing was found.")) chat_ok in
  is_failure_sentinel "No search results found." = false
  /\ exists d,
       fst (handle_message env (text_update "xyz") []) = ([] ++ d)%list
       /\ summarize_calls d =
          [HttpPost openai_url (openai_headers env) (openai_data "No search results found.")]
       /\ replies d =
          match call_answer env
                  (trace_to_delivery env "xyz" "No search results found."
                     (JStr "Nothing was found.")) with
          | Ok _ => [JStr searching_ack; JStr summary_ack; JStr "Nothing was found."]
          | Raise _ => [JStr searching_ack; JStr summary_ack; JStr "Nothing was found.";
                        JStr apology]
          end.
Proof.
  cbv zeta.
  apply (no_results_still_summarized
           (scripted (providers no_results (JStr "Nothing was found.")) chat_ok)
           (text_update "xyz") "xyz" []
           [ReplyText (JStr searching_ack);
            HttpGet brave_url
              (brave_headers (scripted (providers no_results (JStr "Nothing was found."))
                                chat_ok))
              (brave_params "xyz");
            ReplyText (JStr summary_ack);
            HttpPost openai_url
              (openai_headers (scripted (providers no_results (JStr "Nothing was found."))
                                 chat_ok))
              (openai_data "No search results found.")]
           (ok_response no_results) no_results (JStr "Nothing was found.")); by_run.
Defined.

(** C10 as stated fails in two ways, both with a well-formed empty result
    set.  When the chat platform refuses the summary acknowledgement, the
    Summarization Stage is never called; when it refuses the text the model
    produced, the final reply is the apology. *)
Lemma no_results_counterexample :
  let env1 := scripted (providers no_results (JStr "Nothing was found.")) chat_refuses_ack in
  let env2 := scripted (providers no_results (JStr "")) chat_refuses_empty in
  (brave_search env1 "xyz" [ReplyText (JStr searching_ack)] =
     ([ReplyText (JStr searching_ack);
       HttpGet brave_url (brave_headers env1) (brave_params "xyz")],
      Ok "No search results found.")
   /\ summarize_calls (fst (handle_message env1 (text_update "xyz") [])) = []
   /\ replies (fst (handle_message env1 (text_update "xyz") [])) =
        [JStr searching_ack; JStr summary_ack; JStr apology])
  /\ (brave_search env2 "xyz" [ReplyText (JStr searching_ack)] =
        ([ReplyText (JStr searching_ack);
          HttpGet brave_url (brave_headers env2) (brave_params "xyz")],
         Ok "No search results found.")
      /\ snd (summarize_with_openai env2 "No search results found."
                [ReplyText (JStr searching_ack);
                 HttpGet brave_url (brave_headers env2) (brave_params "xyz");
                 ReplyText (JStr summary_ack)]) = Ok (JStr "")
      /\ replies (fst (handle_message env2 (text_update "xyz") [])) =
           [JStr searching_ack; JStr summary_ack; JStr ""; JStr apology]).
Proof.
  cbv zeta. repeat split; by_run.
Qed.

(** ** Webhook endpoint *)

(** The [try] block of the webhook raises on every body that does not parse:
    the decoder's or the parser's exception, or the endpoint's own 400. *)
Lemma telegram_webhook_try_unparseable (env : Env) (request : Request) (tr : list event) :
  unparseable env request ->
  exists e, telegram_webhook_try env request tr = (tr, Raise e)
            /\ (parse_update env request = Ok None ->
                e = HTTPException 400 "Invalid update data").
Proof.
  unfold unparseable, parse_update, telegram_webhook_try, bind, lift, raise.
  destruct (request_json request) as [json_data | e]; cbn [rbind].
  - destruct (de_json env json_data) as [[u |] | e].
    + intros [].
    + intros _. now eexists.
    + intros _. exists e. split; [reflexivity | discriminate].
  - intros _. exists e. split; [reflexivity | discriminate].
Qed.

(** C1, what the code does.  For every request whose body does not parse
    into an update, [telegram_webhook] sends no reply and calls no provider
    (it adds one log line to the trace), but the status it answers with is
    500, not 400: the 400 that the [try] block raises for a body that parses
    to no update is an [Exception], and the block's own handler turns it into
    the 500. *)
Theorem telegram_webhook_unparseable (env : Env) (request : Request) (tr : list event) :
  unparseable env request ->
  exists e,
    telegram_webhook env request tr =
      ((tr ++ [LogError "Webhook error: " e])%list,
       Raise (HTTPException 500 "Internal server error"))
    /\ (parse_update env request = Ok None -> e = HTTPException 400 "Invalid update data").
Proof.
  intros H.
  destruct (telegram_webhook_try_unparseable env request tr H) as (e & Htry & He).
  exists e. split; [| exact He].
  unfold telegram_webhook, try_except. rewrite Htry. reflexivity.
Qed.

(** The body [{}]: it decodes, the parser gives no update, the endpoint
    raises its 400 and answers 500. *)
Lemma telegram_webhook_unparseable_witness :
  let env := scripted_app (providers two_results (JStr "A prover.")) chat_ok in
  let request := {| request_json := Ok (JDict []) |} in
  parse_update env request = Ok None
  /\ exists e,
       telegram_webhook env request [] =
         (([] ++ [LogError "Webhook error: " e])%list,
          Raise (HTTPException 500 "Internal server error"))
       /\ (parse_update env request = Ok None -> e = HTTPException 400 "Invalid update data").
Proof.
  cbv zeta. split; [reflexivity |].
  apply (telegram_webhook_unparseable
           (scripted_app (providers two_results (JStr "A prover.")) chat_ok)
           {| request_json := Ok (JDict []) |} []).
  exact I.
Defined.

(** X13.  The endpoint never answers 400: it returns [{"ok": True}] or raises the
    500. *)
Lemma telegram_webhook_never_400 (env : Env) (request : Request) (tr : list event) :
  snd (telegram_webhook env request tr) = Ok (JDict [("ok", JBool true)])
  \/ snd (telegram_webhook env request tr) = Raise (HTTPException 500 "Internal server error").
Proof.
  unfold telegram_webhook, try_except, telegram_webhook_try, bind, lift, raise.
  destruct (request_json request) as [json_data | e]; [| now right].
  destruct (de_json env json_data) as [[u |] | e]; [| now right | now right].
  destruct (process_update env u tr) as [tr' [[] | e]]; [now left | now right].
Qed.

(** A well-formed update goes through the registered handler and the
    endpoint returns [{"ok": True}]. *)
Example webhook_run :
  let env := scripted_app (providers two_results (JStr "A prover.")) chat_ok in
  let body := JDict [("update_id", JInt 1);
                     ("message", JDict [("message_id", JInt 7); ("text", JStr "rocq")])] in
  snd (telegram_webhook env {| request_json := Ok body |} []) = Ok (JDict [("ok", JBool true)])
  /\ replies (fst (telegram_webhook env {| request_json := Ok body |} [])) =
       [JStr searching_ack; JStr summary_ack; JStr "A prover."].
Proof. cbv zeta. split; by_run. Qed.

(** ** Process life cycle *)

(** [lifespan] after its [yield], unfolded: the stop, then the close only if
    the stop returned, then the log line only if the close returned. *)
Lemma lifespan_shutdown_unfold (env : Env) (tr : list event) :
  lifespan_shutdown env tr =
  match call_answer env (tr ++ [AppStop])%list with
  | Raise e => ((tr ++ [AppStop])%list, Raise e)
  | Ok _ =>
      match call_answer env (tr ++ [AppStop; ClientAclose])%list with
      | Raise e => ((tr ++ [AppStop; ClientAclose])%list, Raise e)
      | Ok _ =>
          ((tr ++ [AppStop; ClientAclose; LogInfo "Application stopped"])%list, Ok tt)
      end
  end.
Proof.
  unfold lifespan_shutdown, bind, call, emit. cbv zeta.
  destruct (call_answer env (tr ++ [AppStop])%list) as [[] |]; [| reflexivity].
  rewrite <- !app_assoc. cbn [app].
  destruct (call_answer env (tr ++ [AppStop; ClientAclose])%list) as [[] |]; reflexivity.
Qed.

(** C3, amended.  On shutdown the dispatch engine's stop is performed, once
    and first; the HTTP client's close is performed exactly when the stop
    returns without raising (whether or not the close itself then raises);
    when the stop raises, its exception leaves [lifespan] and the client is
    not closed. *)
Theorem lifespan_shutdown_order (env : Env) (tr : list event) :
  exists d,
    fst (lifespan_shutdown env tr) = (tr ++ AppStop :: d)%list
    /\ stopped d = false
    /\ closed d =
       match call_answer env (tr ++ [AppStop])%list with
       | Ok _ => true
       | Raise _ => false
       end
    /\ match call_answer env (tr ++ [AppStop])%list with
       | Ok _ => True
       | Raise e => lifespan_shutdown env tr = ((tr ++ [AppStop])%list, Raise e)
       end.
Proof.
  rewrite lifespan_shutdown_unfold.
  destruct (call_answer env (tr ++ [AppStop])%list) as [[] | e].
  - destruct (call_answer env (tr ++ [AppStop; ClientAclose])%list) as [[] | e];
      cbn [fst]; eexists; (split; [reflexivity |]); repeat split.
  - exists []. repeat split.
Qed.

(** C3 as stated fails: when the stop raises, the shutdown ends there and
    the HTTP client is never closed. *)
Lemma lifespan_shutdown_counterexample :
  let env := scripted (providers two_results JNull) stop_fails in
  lifespan_shutdown env [] =
    ([AppStop], Raise (RuntimeError "This Application is not running!"))
  /\ stopped (fst (lifespan_shutdown env [])) = true
  /\ closed (fst (lifespan_shutdown env [])) = false.
Proof. cbv zeta. repeat split. Qed.

(** Start-up followed by a clean shutdown. *)
Example lifespan_run :
  let env := scripted (providers two_results JNull) chat_ok in
  fst (bind (lifespan_startup env) (fun _ => lifespan_shutdown env) []) =
  [NewAsyncClient 30%float; AppInitialize; AppStart; LogInfo "Telegram bot started";
   AppStop; ClientAclose; LogInfo "Application stopped"].
Proof. reflexivity. Qed.

(** * Further properties *)

(** ** The marker test on composed strings *)

Lemma lower_app (a b : string) : PyStr.lower (a ++ b) = PyStr.lower a ++ PyStr.lower b.
Proof. induction a as [| c a IH]; cbn; [reflexivity | now rewrite IH]. Qed.

Lemma startswith_app (p s t : string) :
  PyStr.startswith p s = true -> PyStr.startswith p (s ++ t) = true.
Proof.
  revert s. induction p as [| a p IH]; intros s H; [reflexivity |].
  destruct s as [| b s]; [discriminate |]. cbn in *.
  destruct (Ascii.eqb a b); [now apply IH | discriminate].
Qed.

Lemma contains_empty (s : string) : PyStr.contains "" s = true.
Proof. destruct s; reflexivity. Qed.

Lemma contains_app_l (n a b : string) :
  PyStr.contains n a = true -> PyStr.contains n (a ++ b) = true.
Proof.
  induction a as [| c a IH]; intros H.
  - destruct n; [apply contains_empty | discriminate].
  - cbn [PyStr.contains] in H. change (String c a ++ b) with (String c (a ++ b)).
    cbn [PyStr.contains].
    destruct (PyStr.startswith n (String c a)) eqn:Hp.
    + change (String c (a ++ b)) with (String c a ++ b).
      now rewrite (startswith_app _ _ b Hp).
    + destruct (PyStr.startswith n (String c (a ++ b))); [reflexivity | now apply IH].
Qed.

Lemma contains_app_r (n a b : string) :
  PyStr.contains n b = true -> PyStr.contains n (a ++ b) = true.
Proof.
  intros H. induction a as [| c a IH]; [exact H |].
  change (String c a ++ b) with (String c (a ++ b)). cbn [PyStr.contains].
  destruct (PyStr.startswith n (String c (a ++ b))); [reflexivity | exact IH].
Qed.

(** A string is flagged as soon as a part of it is. *)
Lemma is_failure_sentinel_part (a s b : string) :
  is_failure_sentinel s = true -> is_failure_sentinel (a ++ s ++ b) = true.
Proof.
  unfold is_failure_sentinel. rewrite !lower_app. intros H.
  apply orb_true_iff in H. apply orb_true_iff.
  destruct H as [H | H]; [left | right];
    apply contains_app_r, contains_app_l; exact H.
Qed.

Lemma append_nil_r (s : string) : s ++ "" = s.
Proof. induction s as [| c s IH]; cbn; [reflexivity | now rewrite IH]. Qed.

Lemma append_assoc (a b c : string) : a ++ b ++ c = (a ++ b) ++ c.
Proof. induction a as [| x a IH]; cbn; [reflexivity | now rewrite IH]. Qed.

Lemma join_part (sep x : string) (parts : list string) :
  In x parts -> exists a b, PyStr.join sep parts = a ++ x ++ b.
Proof.
  induction parts as [| p parts IH]; [intros [] |].
  intros [-> | Hin].
  - destruct parts as [| q parts].
    + exists "", "". cbn. now rewrite append_nil_r.
    + exists "", (sep ++ PyStr.join sep (q :: parts)). reflexivity.
  - destruct (IH Hin) as (a & b & Hj).
    destruct parts as [| q parts]; [destruct Hin |].
    exists (p ++ sep ++ a), b.
    change (PyStr.join sep (p :: q :: parts)) with (p ++ sep ++ PyStr.join sep (q :: parts)).
    rewrite Hj. now rewrite <- !append_assoc.
Qed.

(** X1.  The marker test looks at the whole digest, so one result whose title or
    url mentions a marker flags the digest of all the results. *)
Theorem flagged_result_flags_digest (env : Env) (ds : list (list (string * json)))
    (d : list (string * json)) (w : string) :
  In d ds ->
  Py.lookup "title" d = Some (JStr w) \/ Py.lookup "url" d = Some (JStr w) ->
  is_failure_sentinel w = true ->
  is_failure_sentinel (PyStr.join PyStr.LF (map (digest_line env) ds)) = true.
Proof.
  intros Hin Hw Hflag.
  assert (Hline : is_failure_sentinel (digest_line env d) = true).
  { unfold digest_line. destruct Hw as [-> | ->]; cbn [format].
    - apply (is_failure_sentinel_part "" w); exact Hflag.
    - rewrite append_assoc, <- (append_nil_r w).
      apply is_failure_sentinel_part. exact Hflag. }
  destruct (join_part PyStr.LF (digest_line env d) (map (digest_line env) ds))
    as (a & b & ->); [now apply in_map |].
  now apply is_failure_sentinel_part.
Qed.

Lemma flagged_result_flags_digest_witness :
  let env := scripted (providers four_results JNull) chat_ok in
  is_failure_sentinel
    (PyStr.join PyStr.LF
       (map (digest_line env)
          [[("title", JStr "Rocq"); ("url", JStr "https://rocq-prover.org")];
           [("title", JStr "HTTP Error 404"); ("url", JStr "https://a.example")]])) = true.
Proof.
  cbv zeta.
  apply (flagged_result_flags_digest (scripted (providers four_results JNull) chat_ok)
           [[("title", JStr "Rocq"); ("url", JStr "https://rocq-prover.org")];
            [("title", JStr "HTTP Error 404"); ("url", JStr "https://a.example")]]
           [("title", JStr "HTTP Error 404"); ("url", JStr "https://a.example")]
           "HTTP Error 404").
  - right; left; reflexivity.
  - left; reflexivity.
  - reflexivity.
Defined.

(** ** The Search Stage, case by case *)

Lemma getitem_contains (v x : json) (k : string) :
  Py.getitem v k = Ok x -> Py.contains k v = Ok true.
Proof.
  destruct v; cbn; try discriminate.
  destruct (Py.lookup k d); [reflexivity | discriminate].
Qed.

Lemma listed_results_has_results (data : json) (l : list json) :
  listed_results data = Some l ->
  has_results data = Ok (match l with [] => false | _ => true end)
  /\ exists web, Py.getitem data "web" = Ok web /\ Py.getitem web "results" = Ok (JList l).
Proof.
  unfold listed_results, has_results.
  destruct (Py.getitem data "web") as [web |] eqn:Hw; [| discriminate].
  destruct (Py.getitem web "results") as [[| | | | | l' |] |] eqn:Hr; try discriminate.
  intros H. injection H as ->.
  rewrite (getitem_contains _ _ _ Hw). cbn [rbind].
  rewrite (getitem_contains _ _ _ Hr). cbn [rbind]. rewrite Hr. cbn [rbind].
  split; [reflexivity | now exists web].
Qed.

Lemma mapM_render_dicts (env : Env) (ds : list (list (string * json))) :
  mapM (render_result env) (map JDict ds) = Ok (map (digest_line env) ds).
Proof.
  induction ds as [| d ds IH]; [reflexivity |].
  cbn [map mapM]. rewrite render_result_dict. cbn [rbind]. now rewrite IH.
Qed.

(** One entry without a [get] method spoils the whole list. *)
Lemma mapM_render_bad (env : Env) (rs : list json) (r : json) :
  In r rs -> (forall d, r <> JDict d) ->
  mapM (render_result env) rs = Raise AttributeError.
Proof.
  intros Hin Hr. induction rs as [| x rs IH]; [destruct Hin |].
  destruct x as [| | | | | | d]; try reflexivity.
  change (mapM (render_result env) (JDict d :: rs))
    with (rbind (render_result env (JDict d))
            (fun b => rbind (mapM (render_result env) rs) (fun bs => Ok (b :: bs)))).
  rewrite render_result_dict. cbn [rbind].
  destruct Hin as [<- | Hin]; [now destruct (Hr d) |].
  now rewrite (IH Hin).
Qed.

(** X2.  When the provider answers 2xx with a body that lists results, the first
    three of them objects, [brave_search] returns exactly the lines of these
    first three, joined by line feeds, and logs nothing; what is listed after
    the third is never looked at. *)
Theorem brave_search_digest (env : Env) (query : string) (tr : list event)
    (resp : Response) (data : json) (l : list json) (ds : list (list (string * json))) :
  let get := HttpGet brave_url (brave_headers env) (brave_params query) in
  http_answer env (tr ++ [get])%list = Ok resp ->
  raise_for_status resp = Ok tt ->
  json_body resp = Ok data ->
  listed_results data = Some l ->
  l <> [] ->
  firstn 3 l = map JDict ds ->
  brave_search env query tr =
    ((tr ++ [get])%list, Ok (PyStr.join PyStr.LF (map (digest_line env) ds))).
Proof.
  cbv zeta. intros Hans Hst Hbody Hl Hne Hds.
  pose proof (brave_search_unfold env query tr) as H. cbv zeta in H.
  unfold search_result in H. rewrite Hans in H. cbn [rbind] in H.
  rewrite Hst in H. cbn [rbind] in H. rewrite Hbody in H. cbn [rbind] in H.
  destruct (listed_results_has_results data l Hl) as (Hhas & web & Hw & Hr).
  unfold search_digest in H. rewrite Hhas in H.
  destruct l as [| x l]; [congruence |]. cbn [rbind] in H.
  rewrite Hw in H. cbn [rbind] in H. rewrite Hr in H.
  cbn [rbind Py.slice3 Py.iter] in H.
  rewrite Hds, mapM_render_dicts in H. exact H.
Qed.

Lemma brave_search_digest_witness :
  let env := scripted (providers four_results JNull) chat_ok in
  brave_search env "rocq" [] =
    (([] ++ [HttpGet brave_url (brave_headers env) (brave_params "rocq")])%list,
     Ok (PyStr.join PyStr.LF
           (map (digest_line env)
              [[("title", JStr "HTTP Error 404"); ("url", JStr "https://a.example")];
               [("title", JStr "Rocq"); ("url", JStr "https://rocq-prover.org")];
               [("title", JStr "Untitled")]]))).
Proof.
  cbv zeta.
  apply (brave_search_digest (scripted (providers four_results JNull) chat_ok) "rocq" []
           (ok_response four_results) four_results
           [JDict [("title", JStr "HTTP Error 404"); ("url", JStr "https://a.example")];
            JDict [("title", JStr "Rocq"); ("url", JStr "https://rocq-prover.org")];
            JDict [("title", JStr "Untitled")];
            JInt 4]); by_run.
Defined.

(** X3.  When one of the first three listed results is not an object, the
    well-formed ones are lost with it: [brave_search] logs the
    [AttributeError] and returns the generic failure sentinel. *)
Theorem brave_search_malformed_result (env : Env) (query : string) (tr : list event)
    (resp : Response) (data : json) (l : list json) (r : json) :
  let get := HttpGet brave_url (brave_headers env) (brave_params query) in
  http_answer env (tr ++ [get])%list = Ok resp ->
  raise_for_status resp = Ok tt ->
  json_body resp = Ok data ->
  listed_results data = Some l ->
  In r (firstn 3 l) ->
  (forall d, r <> JDict d) ->
  brave_search env query tr =
    ((tr ++ [get; LogError "Unexpected error in brave_search: " AttributeError])%list,
     Ok "An error occurred during search.").
Proof.
  cbv zeta. intros Hans Hst Hbody Hl Hin Hr.
  pose proof (brave_search_unfold env query tr) as H. cbv zeta in H.
  unfold search_result in H. rewrite Hans in H. cbn [rbind] in H.
  rewrite Hst in H. cbn [rbind] in H. rewrite Hbody in H. cbn [rbind] in H.
  destruct (listed_results_has_results data l Hl) as (Hhas & web & Hw & Hres).
  unfold search_digest in H. rewrite Hhas in H.
  destruct l as [| x l]; [destruct Hin |]. cbn [rbind] in H.
  rewrite Hw in H. cbn [rbind] in H. rewrite Hres in H.
  cbn [rbind Py.slice3 Py.iter] in H.
  rewrite (mapM_render_bad env _ r Hin Hr) in H. cbn [rbind isinstance_HTTPError] in H.
  rewrite H, <- app_assoc. reflexivity.
Qed.

Lemma brave_search_malformed_result_witness :
  let env := scripted (providers (JDict [("web", JDict [("results",
               JList [JDict [("title", JStr "Rocq")]; JStr "https://example.org"])])]) JNull)
               chat_ok in
  brave_search env "rocq" [] =
    (([] ++ [HttpGet brave_url (brave_headers env) (brave_params "rocq");
             LogError "Unexpected error in brave_search: " AttributeError])%list,
     Ok "An error occurred during search.").
Proof.
  cbv zeta.
  apply (brave_search_malformed_result _ "rocq" []
           (ok_response (JDict [("web", JDict [("results",
               JList [JDict [("title", JStr "Rocq")]; JStr "https://example.org"])])]))
           (JDict [("web", JDict [("results",
               JList [JDict [("title", JStr "Rocq")]; JStr "https://example.org"])])])
           [JDict [("title", JStr "Rocq")]; JStr "https://example.org"]
           (JStr "https://example.org")); try by_run.
  - cbn. now right; left.
Defined.

(** X4.  A status outside 200..299 ends the search with the unavailable
    sentinel, whatever the body holds: the body is not decoded, and a list of
    results that came with the status is dropped. *)
Theorem brave_search_bad_status (env : Env) (query : string) (tr : list event)
    (resp : Response) :
  let get := HttpGet brave_url (brave_headers env) (brave_params query) in
  http_answer env (tr ++ [get])%list = Ok resp ->
  (status_code resp < 200 \/ 299 < status_code resp)%Z ->
  brave_search env query tr =
    ((tr ++ [get; LogError "Brave search error: " (HTTPStatusError (status_code resp))])%list,
     Ok "Search service temporarily unavailable.").
Proof.
  cbv zeta. intros Hans Hst.
  pose proof (brave_search_unfold env query tr) as H. cbv zeta in H.
  unfold search_result in H. rewrite Hans in H. cbn [rbind] in H.
  assert (Hr : raise_for_status resp = Raise (HTTPStatusError (status_code resp))).
  { unfold raise_for_status.
    destruct (Z.leb_spec 200 (status_code resp)), (Z.leb_spec (status_code resp) 299);
      cbn; try reflexivity; lia. }
  rewrite Hr in H. cbn [rbind isinstance_HTTPError] in H.
  rewrite H, <- app_assoc. reflexivity.
Qed.

Lemma brave_search_bad_status_witness :
  let env := scripted (search_status 429 two_results) chat_ok in
  brave_search env "rocq" [] =
    (([] ++ [HttpGet brave_url (brave_headers env) (brave_params "rocq");
             LogError "Brave search error: " (HTTPStatusError 429)])%list,
     Ok "Search service temporarily unavailable.").
Proof.
  cbv zeta.
  apply (brave_search_bad_status (scripted (search_status 429 two_results) chat_ok) "rocq" []
           {| status_code := 429; json_body := Ok two_results |}).
  - reflexivity.
  - right. cbn. lia.
Defined.

(** ** The Summarization Stage, case by case *)

(** X5.  Only the first choice is read, and its content is returned as it is,
    string or not: a [null] content comes back as [None]. *)
Theorem summarize_first_choice (env : Env) (text : string) (tr : list event)
    (response : Response) (d : list (string * json)) (c m v : json) (rest : list json) :
  let post := HttpPost openai_url (openai_headers env) (openai_data text) in
  http_answer env (tr ++ [post])%list = Ok response ->
  raise_for_status response = Ok tt ->
  json_body response = Ok (JDict d) ->
  Py.lookup "choices" d = Some (JList (c :: rest)) ->
  Py.getitem c "message" = Ok m ->
  Py.getitem m "content" = Ok v ->
  summarize_with_openai env text tr = ((tr ++ [post])%list, Ok v).
Proof.
  cbv zeta. intros Hans Hst Hbody Hch Hm Hv.
  pose proof (summarize_unfold env text tr) as H. cbv zeta in H.
  unfold summary_result in H. rewrite Hans in H. cbn [rbind] in H.
  rewrite Hst in H. cbn [rbind] in H. rewrite Hbody in H. cbn [rbind] in H.
  unfold summary_of, has_choices, first_choice_content in H.
  cbn [Py.contains Py.getitem] in H. rewrite Hch in H.
  cbn [rbind Py.truthy Py.getitem0] in H. rewrite Hm in H. cbn [rbind] in H.
  rewrite Hv in H. exact H.
Qed.

Lemma summarize_first_choice_witness :
  let env := scripted (providers two_results JNull) chat_ok in
  summarize_with_openai env "digest" [] =
    (([] ++ [HttpPost openai_url (openai_headers env) (openai_data "digest")])%list, Ok JNull).
Proof.
  cbv zeta.
  apply (summarize_first_choice (scripted (providers two_results JNull) chat_ok) "digest" []
           (ok_response (completion JNull))
           [("choices", JList [JDict [("message",
               JDict [("role", JStr "assistant"); ("content", JNull)])]])]
           (JDict [("message", JDict [("role", JStr "assistant"); ("content", JNull)])])
           (JDict [("role", JStr "assistant"); ("content", JNull)]) JNull []); by_run.
Defined.

(** What [result["choices"][0]["message"]["content"]] raises is a lookup
    error, never an HTTP error. *)
Lemma first_choice_content_error (res : json) (e : exn) :
  first_choice_content res = Raise e -> isinstance_HTTPError e = false.
Proof.
  unfold first_choice_content.
  destruct (Py.getitem res "choices") as [choices |] eqn:H1; cbn [rbind].
  2: { destruct res; cbn in H1; try (injection H1 as <-; intros H; now injection H as <-).
       destruct (Py.lookup "choices" d); [discriminate |].
       injection H1 as <-. intros H. now injection H as <-. }
  destruct (Py.getitem0 choices) as [choice |] eqn:H2; cbn [rbind].
  2: { intros H. injection H as <-.
       destruct choices as [| | | | s | [| x l] | d]; cbn in H2;
         try (now injection H2 as <-).
       - destruct (PyStr.chars s); [now injection H2 as <- | discriminate].
       - discriminate. }
  destruct (Py.getitem choice "message") as [msg |] eqn:H3; cbn [rbind].
  2: { intros H. injection H as <-.
       destruct choice; cbn in H3; try (now injection H3 as <-).
       destruct (Py.lookup "message" d); [discriminate | now injection H3 as <-]. }
  intros H4.
  destruct msg; cbn in H4; try (now injection H4 as <-).
  destruct (Py.lookup "content" d); [discriminate | now injection H4 as <-].
Qed.

(** X6.  When the answer has choices but the content of the first one cannot be
    reached (no [message], no [content], a choice that is not an object),
    the lookup error is logged and the generic failure sentinel returned. *)
Theorem summarize_malformed_choice (env : Env) (text : string) (tr : list event)
    (response : Response) (res : json) (e : exn) :
  let post := HttpPost openai_url (openai_headers env) (openai_data text) in
  http_answer env (tr ++ [post])%list = Ok response ->
  raise_for_status response = Ok tt ->
  json_body response = Ok res ->
  has_choices res = Ok true ->
  first_choice_content res = Raise e ->
  summarize_with_openai env text tr =
    ((tr ++ [post; LogError "Unexpected error in summarize_with_openai: " e])%list,
     Ok (JStr "An error occurred while generating summary.")).
Proof.
  cbv zeta. intros Hans Hst Hbody Hch He.
  pose proof (summarize_unfold env text tr) as H. cbv zeta in H.
  unfold summary_result in H. rewrite Hans in H. cbn [rbind] in H.
  rewrite Hst in H. cbn [rbind] in H. rewrite Hbody in H. cbn [rbind] in H.
  unfold summary_of in H. rewrite Hch in H. cbn [rbind] in H. rewrite He in H.
  rewrite (first_choice_content_error res e He) in H.
  rewrite H, <- app_assoc. reflexivity.
Qed.

Lemma summarize_malformed_choice_witness :
  let env := scripted (fun _ => Ok (ok_response (JDict [("choices", JList [JDict []])])))
               chat_ok in
  summarize_with_openai env "digest" [] =
    (([] ++ [HttpPost openai_url (openai_headers env) (openai_data "digest");
             LogError "Unexpected error in summarize_with_openai: " KeyError])%list,
     Ok (JStr "An error occurred while generating summary.")).
Proof.
  cbv zeta.
  apply (summarize_malformed_choice _ "digest" []
           (ok_response (JDict [("choices", JList [JDict []])]))
           (JDict [("choices", JList [JDict []])]) KeyError); by_run.
Defined.

(** ** The Dispatch Stage and the failures of the stages *)

(** When its [try] block raises, [brave_search] logs the exception and
    returns the sentinel of its class. *)
Lemma brave_search_failure (env : Env) (query : string) (tr : list event) (e : exn) :
  let get := HttpGet brave_url (brave_headers env) (brave_params query) in
  search_result env (http_answer env (tr ++ [get])%list) = Raise e ->
  exists prefix,
    brave_search env query tr =
      ((tr ++ [get; LogError prefix e])%list, Ok (search_failure_sentinel e)).
Proof.
  cbv zeta. intros He.
  pose proof (brave_search_unfold env query tr) as H. cbv zeta in H.
  rewrite He in H. unfold search_failure_sentinel.
  destruct (isinstance_HTTPError e); eexists; rewrite H, <- app_assoc; reflexivity.
Qed.

Lemma search_failure_sentinel_flagged (e : exn) :
  is_failure_sentinel (search_failure_sentinel e) = true.
Proof. unfold search_failure_sentinel. destruct (isinstance_HTTPError e); reflexivity. Qed.

(** X7.  Both failure sentinels of the Search Stage carry a marker, so whenever
    the search fails (the request raises, the status is not 2xx, the body
    does not decode or has an unexpected shape) the handler relays the
    sentinel and the summarization provider is not called: the replies are
    the acknowledgement and the sentinel, and the apology if relaying the
    sentinel raised. *)
Theorem search_failure_short_circuits (env : Env) (u : Update) (t : string)
    (tr : list event) (e : exn) :
  let ack := ReplyText (JStr searching_ack) in
  let get := HttpGet brave_url (brave_headers env) (brave_params (PyStr.strip t)) in
  update_text u = Some t -> t <> "" -> PyStr.strip t <> "" ->
  call_answer env (tr ++ [ack])%list = Ok tt ->
  search_result env (http_answer env (tr ++ [ack; get])%list) = Raise e ->
  exists d,
    fst (handle_message env u tr) = (tr ++ d)%list
    /\ summarize_calls d = []
    /\ (replies d = [JStr searching_ack; JStr (search_failure_sentinel e)]
        \/ replies d = [JStr searching_ack; JStr (search_failure_sentinel e); JStr apology]).
Proof.
  cbv zeta. intros Hu Ht Hs Hack He.
  destruct (brave_search_failure env (PyStr.strip t)
              (tr ++ [ReplyText (JStr searching_ack)]) e) as [prefix Hb].
  { now rewrite <- app_assoc. }
  rewrite handle_message_unfold, (handle_message_try_query env u t tr Hu Ht Hs).
  cbv zeta. rewrite Hack, Hb, search_failure_sentinel_flagged.
  on_answer e'; cbn [fst]; unfold apologize; rewrite <- !app_assoc;
    eexists; (split; [reflexivity |]); (split; [reflexivity |]);
    [left | right]; reflexivity.
Qed.

Lemma search_failure_short_circuits_witness :
  let env := scripted (search_status 503 no_results) chat_ok in
  exists d,
    fst (handle_message env (text_update "rocq") []) = ([] ++ d)%list
    /\ summarize_calls d = []
    /\ (replies d = [JStr searching_ack;
                     JStr (search_failure_sentinel (HTTPStatusError 503))]
        \/ replies d = [JStr searching_ack;
                        JStr (search_failure_sentinel (HTTPStatusError 503));
                        JStr apology]).
Proof.
  cbv zeta.
  apply (search_failure_short_circuits (scripted (search_status 503 no_results) chat_ok)
           (text_update "rocq") "rocq" [] (HTTPStatusError 503)); by_run.
Defined.

(** When its [try] block raises, [summarize_with_openai] logs the exception
    and returns the sentinel of its class. *)
Lemma summarize_failure (env : Env) (text : string) (tr : list event) (e : exn) :
  let post := HttpPost openai_url (openai_headers env) (openai_data text) in
  summary_result (http_answer env (tr ++ [post])%list) = Raise e ->
  exists prefix,
    summarize_with_openai env text tr =
      ((tr ++ [post; LogError prefix e])%list, Ok (JStr (summary_failure_sentinel e))).
Proof.
  cbv zeta. intros He.
  pose proof (summarize_unfold env text tr) as H. cbv zeta in H.
  rewrite He in H. unfold summary_failure_sentinel.
  destruct (isinstance_HTTPError e); eexists; rewrite H, <- app_assoc; reflexivity.
Qed.

(** X8.  A failure of the Summarization Stage is not told from a summary: its
    sentinel is delivered as the third reply, after the two
    acknowledgements (and followed by the apology only if its delivery
    raised). *)
Theorem summary_failure_delivered (env : Env) (u : Update) (t : string)
    (tr tr2 : list event) (s : string) (e : exn) :
  let ack2 := ReplyText (JStr summary_ack) in
  let post := HttpPost openai_url (openai_headers env) (openai_data s) in
  update_text u = Some t -> t <> "" -> PyStr.strip t <> "" ->
  call_answer env (tr ++ [ReplyText (JStr searching_ack)])%list = Ok tt ->
  brave_search env (PyStr.strip t) (tr ++ [ReplyText (JStr searching_ack)])%list
    = (tr2, Ok s) ->
  is_failure_sentinel s = false ->
  call_answer env (tr2 ++ [ack2])%list = Ok tt ->
  summary_result (http_answer env (tr2 ++ [ack2; post])%list) = Raise e ->
  exists d,
    fst (handle_message env u tr) = (tr ++ d)%list
    /\ (replies d =
          [JStr searching_ack; JStr summary_ack; JStr (summary_failure_sentinel e)]
        \/ replies d =
          [JStr searching_ack; JStr summary_ack; JStr (summary_failure_sentinel e);
           JStr apology]).
Proof.
  cbv zeta. intros Hu Ht Hs Hack Hsearch Hflag Hack2 He.
  destruct (summarize_failure env s (tr2 ++ [ReplyText (JStr summary_ack)]) e)
    as [prefix Hsum].
  { now rewrite <- app_assoc. }
  destruct (pipeline_replies env u t tr tr2 _ s _ Hu Ht Hs Hack Hsearch Hflag Hack2 Hsum)
    as (d & Hd & Hr & _).
  exists d. split; [exact Hd |].
  match type of Hr with
  | context [match ?c with _ => _ end] => destruct c
  end; [now left | now right].
Qed.

Lemma summary_failure_delivered_witness :
  let env := scripted (summarizer_down two_results) chat_ok in
  exists d,
    fst (handle_message env (text_update "rocq") []) = ([] ++ d)%list
    /\ (replies d =
          [JStr searching_ack; JStr summary_ack;
           JStr (summary_failure_sentinel (RequestError "read timeout"))]
        \/ replies d =
          [JStr searching_ack; JStr summary_ack;
           JStr (summary_failure_sentinel (RequestError "read timeout")); JStr apology]).
Proof.
  cbv zeta.
  apply (summary_failure_delivered (scripted (summarizer_down two_results) chat_ok)
           (text_update "rocq") "rocq" []
           [ReplyText (JStr searching_ack);
            HttpGet brave_url
              (brave_headers (scripted (summarizer_down two_results) chat_ok))
              (brave_params "rocq")]
           two_results_digest (RequestError "read timeout")); by_run.
Defined.

(** ** What one message can cost *)

Ltac count_calls :=
  rewrite ?replies_app, ?search_calls_app, ?summarize_calls_app;
  cbn [replies search_calls summarize_calls flat_map filter app List.length];
  repeat match goal with
         | H : forallb is_log ?l = true |- _ =>
             let Hr := fresh in
             let Hs := fresh in
             let Hp := fresh in
             destruct (logs_silent l H) as (Hr & Hs & Hp);
             fold (replies l) (search_calls l) (summarize_calls l);
             rewrite ?Hr, ?Hs, ?Hp; clear H
         end;
  cbn [app List.length].

(** X9.  Whatever the update and whatever the outside answers, one run of
    [handle_message] makes at most one request to the search provider, at
    most one to the summarization provider, the latter only after the
    former, and at most four replies. *)
Theorem handle_message_call_bounds (env : Env) (u : Update) (tr : list event) :
  exists d,
    fst (handle_message env u tr) = (tr ++ d)%list
    /\ List.length (search_calls d) <= 1
    /\ List.length (summarize_calls d) <= 1
    /\ List.length (summarize_calls d) <= List.length (search_calls d)
    /\ List.length (replies d) <= 4.
Proof.
  rewrite handle_message_unfold.
  destruct (update_text u) as [t |] eqn:Hu.
  2: { rewrite handle_message_try_silent by (now left).
       exists []. cbn. rewrite app_nil_r. repeat split; lia. }
  destruct (string_dec t "") as [-> | Ht].
  { rewrite handle_message_try_silent by (now right).
    exists []. cbn. rewrite app_nil_r. repeat split; lia. }
  destruct (string_dec (PyStr.strip t) "") as [Hs | Hs].
  { rewrite (handle_message_try_blank env u t tr Hu Ht Hs). cbv beta iota zeta.
    on_answer e; cbn [fst]; unfold apologize; rewrite <- ?app_assoc;
      eexists; (split; [reflexivity |]); cbn; repeat split; lia. }
  rewrite (handle_message_try_query env u t tr Hu Ht Hs). cbv zeta.
  on_answer e1.
  2: { cbn [fst]. unfold apologize. rewrite <- ?app_assoc.
       eexists; (split; [reflexivity |]); cbn; repeat split; lia. }
  destruct (brave_search_trace env (PyStr.strip t)
              (tr ++ [ReplyText (JStr searching_ack)])) as (s & logs & -> & Hlogs).
  destruct (is_failure_sentinel s).
  { on_answer e2; cbn [fst]; unfold apologize; rewrite <- ?app_assoc;
      eexists; (split; [reflexivity |]); count_calls; repeat split; lia. }
  on_answer e2.
  2: { cbn [fst]. unfold apologize. rewrite <- ?app_assoc.
       eexists; (split; [reflexivity |]); count_calls; repeat split; lia. }
  match goal with
  | |- context [summarize_with_openai env s ?x] =>
      destruct (summarize_trace env s x) as (v & logs' & -> & Hlogs')
  end.
  on_answer e3; cbn [fst]; unfold apologize; rewrite <- ?app_assoc;
    eexists; (split; [reflexivity |]); count_calls; repeat split; lia.
Qed.

(** X10.  An exception leaves [handle_message] only when the chat platform failed
    twice in a row: a reply of the pipeline raised, and then the apology
    raised as well; the exception that comes out is the apology's. *)
Theorem handle_message_raises_after_two_replies (env : Env) (u : Update)
    (tr : list event) (e : exn) :
  snd (handle_message env u tr) = Raise e ->
  exists before x e0,
    fst (handle_message env u tr) =
      (before ++ [ReplyText x; LogError "Error in handle_message: " e0;
                  ReplyText (JStr apology)])%list
    /\ call_answer env (before ++ [ReplyText x])%list = Raise e0
    /\ call_answer env (fst (handle_message env u tr)) = Raise e.
Proof.
  rewrite handle_message_unfold.
  destruct (handle_message_try env u tr) as [tr' [[] | e0]] eqn:Htry; [discriminate |].
  cbn [fst snd]. intros He.
  destruct (handle_message_try_raises_at_reply env u tr tr' e0 Htry)
    as (before & x & -> & Hx).
  exists before, x, e0. unfold apologize in *. rewrite <- app_assoc in *.
  repeat split; assumption.
Qed.

Lemma handle_message_raises_after_two_replies_witness :
  let env := scripted (providers two_results JNull) chat_down in
  snd (handle_message env (text_update "rocq") []) = Raise (TelegramError "Timed out")
  /\ exists before x e0,
       fst (handle_message env (text_update "rocq") []) =
         (before ++ [ReplyText x; LogError "Error in handle_message: " e0;
                     ReplyText (JStr apology)])%list
       /\ call_answer env (before ++ [ReplyText x])%list = Raise e0
       /\ call_answer env (fst (handle_message env (text_update "rocq") []))
          = Raise (TelegramError "Timed out").
Proof.
  cbv zeta. split; [reflexivity |].
  apply (handle_message_raises_after_two_replies
           (scripted (providers two_results JNull) chat_down) (text_update "rocq") []).
  reflexivity.
Defined.

(** X11.  The data that flows through the pipeline: the search provider is asked
    for the trimmed text of the message, with a count of 3 and the configured
    key, and the summarization provider is sent the output of the Search
    Stage, unchanged, after the fixed prompt. *)
Theorem pipeline_requests (env : Env) (u : Update) (t : string)
    (tr tr2 : list event) (s : string) :
  update_text u = Some t -> t <> "" -> PyStr.strip t <> "" ->
  call_answer env (tr ++ [ReplyText (JStr searching_ack)])%list = Ok tt ->
  brave_search env (PyStr.strip t) (tr ++ [ReplyText (JStr searching_ack)])%list
    = (tr2, Ok s) ->
  is_failure_sentinel s = false ->
  call_answer env (tr2 ++ [ReplyText (JStr summary_ack)])%list = Ok tt ->
  exists d,
    fst (handle_message env u tr) = (tr ++ d)%list
    /\ search_calls d =
       [HttpGet "https://api.search.brave.com/res/v1/web/search"
          [("Accept", "application/json"); ("X-Subscription-Token", BRAVE_API_KEY env)]
          [("q", JStr (PyStr.strip t)); ("count", JInt 3)]]
    /\ exists body,
         summarize_calls d =
           [HttpPost "https://api.openai.com/v1/chat/completions"
              [("Authorization", "Bearer " ++ OPENAI_API_KEY env);
               ("Content-Type", "application/json")] body]
         /\ (messages <~ Py.getitem body "messages" ;
             ms <~ Py.iter messages ;
             mapM (fun m => Py.getitem m "content") ms)%result
            = Ok [JStr "You are a helpful assistant that summarizes search results concisely.";
                  JStr ("Summarize and explain these search results:" ++ PyStr.LF ++ s)].
Proof.
  intros Hu Ht Hs Hack Hsearch Hflag Hack2.
  destruct (summarize_trace env s (tr2 ++ [ReplyText (JStr summary_ack)]))
    as (v & logs' & Hsum & _).
  destruct (pipeline_replies env u t tr tr2 _ s v Hu Ht Hs Hack Hsearch Hflag Hack2 Hsum)
    as (d & Hd & _ & Hget & Hpost).
  exists d. split; [exact Hd |]. split; [exact Hget |].
  exists (openai_data s). split; [exact Hpost | reflexivity].
Qed.

Lemma pipeline_requests_witness :
  let env := scripted (providers two_results (JStr "A prover.")) chat_ok in
  exists d,
    fst (handle_message env (text_update " rocq ") []) = ([] ++ d)%list
    /\ search_calls d =
       [HttpGet "https://api.search.brave.com/res/v1/web/search"
          [("Accept", "application/json"); ("X-Subscription-Token", BRAVE_API_KEY env)]
          [("q", JStr (PyStr.strip " rocq ")); ("count", JInt 3)]]
    /\ exists body,
         summarize_calls d =
           [HttpPost "https://api.openai.com/v1/chat/completions"
              [("Authorization", "Bearer " ++ OPENAI_API_KEY env);
               ("Content-Type", "application/json")] body]
         /\ (messages <~ Py.getitem body "messages" ;
             ms <~ Py.iter messages ;
             mapM (fun m => Py.getitem m "content") ms)%result
            = Ok [JStr "You are a helpful assistant that summarizes search results concisely.";
                  JStr ("Summarize and explain these search results:" ++ PyStr.LF
                        ++ two_results_digest)].
Proof.
  cbv zeta.
  apply (pipeline_requests (scripted (providers two_results (JStr "A prover.")) chat_ok)
           (text_update " rocq ") " rocq " []
           [ReplyText (JStr searching_ack);
            HttpGet brave_url
              (brave_headers (scripted (providers two_results (JStr "A prover.")) chat_ok))
              (brave_params "rocq")]
           two_results_digest); by_run.
Defined.

(** ** The webhook and the handler behind it *)

(** X12.  For a body that parses into an update, the endpoint hands the update to
    [process_update] once and adds nothing of its own when that returns; when
    that raises, what it did stays done, the exception is logged and the
    endpoint answers 500. *)
Theorem telegram_webhook_dispatch (env : Env) (request : Request) (u : Update)
    (tr : list event) :
  parse_update env request = Ok (Some u) ->
  telegram_webhook env request tr =
  match process_update env u tr with
  | (tr', Ok _) => (tr', Ok (JDict [("ok", JBool true)]))
  | (tr', Raise e) =>
      ((tr' ++ [LogError "Webhook error: " e])%list,
       Raise (HTTPException 500 "Internal server error"))
  end.
Proof.
  unfold parse_update, telegram_webhook, try_except, telegram_webhook_try, bind, lift.
  destruct (request_json request) as [json_data |]; cbn [rbind]; [| discriminate].
  intros ->. destruct (process_update env u tr) as [tr' [[] | e]]; reflexivity.
Qed.

Lemma telegram_webhook_dispatch_witness :
  let env := scripted_app (providers two_results JNull) chat_down in
  let request := {| request_json :=
                      Ok (JDict [("update_id", JInt 1);
                                 ("message", JDict [("text", JStr "rocq")])]) |} in
  telegram_webhook env request [] =
  match process_update env (text_update "rocq") [] with
  | (tr', Ok _) => (tr', Ok (JDict [("ok", JBool true)]))
  | (tr', Raise e) =>
      ((tr' ++ [LogError "Webhook error: " e])%list,
       Raise (HTTPException 500 "Internal server error"))
  end.
Proof.
  cbv zeta.
  apply (telegram_webhook_dispatch (scripted_app (providers two_results JNull) chat_down)
           {| request_json :=
                Ok (JDict [("update_id", JInt 1);
                           ("message", JDict [("text", JStr "rocq")])]) |}
           (text_update "rocq") []).
  reflexivity.
Defined.

(** ** Start-up, service and shutdown *)

Lemma lifespan_startup_unfold (env : Env) (tr : list event) :
  let client := NewAsyncClient 30%float in
  lifespan_startup env tr =
  match call_answer env (tr ++ [client; AppInitialize])%list with
  | Raise e => ((tr ++ [client; AppInitialize])%list, Raise e)
  | Ok _ =>
      match call_answer env (tr ++ [client; AppInitialize; AppStart])%list with
      | Raise e => ((tr ++ [client; AppInitialize; AppStart])%list, Raise e)
      | Ok _ =>
          ((tr ++ [client; AppInitialize; AppStart; LogInfo "Telegram bot started"])%list,
           Ok tt)
      end
  end.
Proof.
  cbv zeta. unfold lifespan_startup, bind, call, emit. cbv zeta.
  rewrite <- !app_assoc. cbn [app].
  destruct (call_answer env (tr ++ [NewAsyncClient 30; AppInitialize])%list) as [[] |];
    [| reflexivity].
  destruct (call_answer env (tr ++ [NewAsyncClient 30; AppInitialize; AppStart])%list)
    as [[] |]; reflexivity.
Qed.

(** X14.  The HTTP client is created before the application is initialized and
    started; when either of the two raises, the exception leaves [lifespan],
    the application is never served, and nothing closes the client that was
    created. *)
Theorem lifespan_startup_failure (env : Env) (serve : M unit) (tr : list event) (e : exn) :
  let client := NewAsyncClient 30%float in
  call_answer env (tr ++ [client; AppInitialize])%list = Raise e
  \/ (call_answer env (tr ++ [client; AppInitialize])%list = Ok tt
      /\ call_answer env (tr ++ [client; AppInitialize; AppStart])%list = Raise e) ->
  exists d,
    lifespan env serve tr = ((tr ++ client :: d)%list, Raise e)
    /\ (d = [AppInitialize] \/ d = [AppInitialize; AppStart])
    /\ closed d = false.
Proof.
  cbv zeta. intros H. unfold lifespan, bind.
  pose proof (lifespan_startup_unfold env tr) as Hs. cbv zeta in Hs. rewrite Hs.
  destruct H as [-> | [-> ->]]; eexists; (split; [reflexivity |]); split; auto.
Qed.

Lemma lifespan_startup_failure_witness :
  let env := scripted (providers two_results JNull) initialize_fails in
  exists d,
    lifespan env (ret tt) [] =
      (([] ++ NewAsyncClient 30%float :: d)%list, Raise (TelegramError "Unauthorized"))
    /\ (d = [AppInitialize] \/ d = [AppInitialize; AppStart])
    /\ closed d = false.
Proof.
  cbv zeta.
  apply (lifespan_startup_failure (scripted (providers two_results JNull) initialize_fails)
           (ret tt) [] (TelegramError "Unauthorized")).
  left. reflexivity.
Defined.

(** X15.  The generator has no [finally]: when start-up succeeds and what runs
    inside the context raises, [lifespan] ends with that exception where the
    service ended; the application is not stopped and the client is not
    closed. *)
Theorem lifespan_service_failure (env : Env) (serve : M unit) (tr tr' : list event) (e : exn) :
  let started := (tr ++ [NewAsyncClient 30%float; AppInitialize; AppStart;
                         LogInfo "Telegram bot started"])%list in
  lifespan_startup env tr = (started, Ok tt) ->
  serve started = (tr', Raise e) ->
  lifespan env serve tr = (tr', Raise e).
Proof.
  cbv zeta. intros Hs Hserve. unfold lifespan, bind. now rewrite Hs, Hserve.
Qed.

Lemma lifespan_service_failure_witness :
  let env := scripted (providers two_results JNull) chat_ok in
  lifespan env (raise (RuntimeError "server stopped unexpectedly")) [] =
    ([NewAsyncClient 30%float; AppInitialize; AppStart; LogInfo "Telegram bot started"],
     Raise (RuntimeError "server stopped unexpectedly")).
Proof.
  cbv zeta.
  apply (lifespan_service_failure (scripted (providers two_results JNull) chat_ok)
           (raise (RuntimeError "server stopped unexpectedly")) []); by_run.
Defined.

(** When start-up, the service and the stop all return, the run ends with
    the stop, the close of the client created at the start, and the log
    line, in this order. *)
Example lifespan_clean_run :
  let env := scripted (providers two_results JNull) chat_ok in
  lifespan env (ret tt) [] =
    ([NewAsyncClient 30%float; AppInitialize; AppStart; LogInfo "Telegram bot started";
      AppStop; ClientAclose; LogInfo "Application stopped"], Ok tt).
Proof. reflexivity. Qed.

(** ** Configuration *)

Lemma getenv_truthy_spec (v : option string) :
  getenv_truthy v = true <-> exists s, v = Some s /\ s <> "".
Proof.
  destruct v as [s |]; cbn.
  - rewrite truthy_nonempty. split; [intros H; now exists s | intros (s' & [= <-] & H); exact H].
  - split; [discriminate | intros (s & H & _); discriminate].
Qed.

(** X16.  The import goes through exactly when the three variables are all set to
    a non-empty value; a variable set to the empty string stops it like one
    that is not set, with the same [ValueError]. *)
Theorem check_environment_spec (token search_key model_key : option string) :
  (check_environment token search_key model_key = Ok tt <->
   exists t b o, token = Some t /\ search_key = Some b /\ model_key = Some o
                 /\ t <> "" /\ b <> "" /\ o <> "")
  /\ (check_environment token search_key model_key = Ok tt \/
      check_environment token search_key model_key =
        Raise (OtherError "ValueError" "Missing required environment variables")).
Proof.
  unfold check_environment. cbn [forallb].
  split.
  - destruct (getenv_truthy token) eqn:H1, (getenv_truthy search_key) eqn:H2,
      (getenv_truthy model_key) eqn:H3; cbn;
      (split; [intros H; try discriminate | intros (t & b & o & -> & -> & -> & Ht & Hb & Ho)]).
    + apply getenv_truthy_spec in H1 as (t & -> & Ht), H2 as (b & -> & Hb),
        H3 as (o & -> & Ho).
      now exists t, b, o.
    + reflexivity.
    + cbn in H3. apply truthy_nonempty in Ho. congruence.
    + cbn in H2. apply truthy_nonempty in Hb. congruence.
    + cbn in H2. apply truthy_nonempty in Hb. congruence.
    + cbn in H1. apply truthy_nonempty in Ht. congruence.
    + cbn in H1. apply truthy_nonempty in Ht. congruence.
    + cbn in H1. apply truthy_nonempty in Ht. congruence.
    + cbn in H1. apply truthy_nonempty in Ht. congruence.
  - destruct (getenv_truthy token && (getenv_truthy search_key && (getenv_truthy model_key && true)));
      [now left | now right].
Qed.

Example check_environment_empty_key :
  check_environment (Some "123:abc") (Some "") (Some "sk-1") =
  Raise (OtherError "ValueError" "Missing required environment variables").
Proof. reflexivity. Qed.

(** ** Health check *)

Example health_check_run :
  health_check true [AppStart] =
  ([AppStart], Ok (JDict [("status", JStr "healthy"); ("bot_running", JBool true)])).
Proof. reflexivity. Qed.
